(** * ProdStarterHub, FastAPI template: [app/main.py]

    A shallow embedding of the service scaffold: the settings loader, the
    placeholder [Database] handle and its module-level singleton [_db], the
    route handlers, the global exception handler, the instrumentation
    middleware and the startup/shutdown hooks.

    Conventions.
    - Python text is [string]; the scaffold only handles ASCII text.
    - [os.environ] and the [.env] file are finite maps from names to values.
    - Module-level mutable state ([_db], the two Prometheus instruments, the
      log sink, the wall clock) is one [World] record threaded through a
      small state-and-exception monad [M]; an exception leaves the state it
      had been given, as in Python.
    - [time.time()] returns a float; readings are idealised as rationals.
      No property below depends on their values.
    - Calls into structlog and prometheus_client are total, with one
      exception: the three calls of the middleware's recording block, which
      the source itself guards against failure, consult a [Faults] record
      that says which of them raise on the request at hand.
    - [except Exception] is narrower than a catch-all: exceptions come in
      the kinds [Exception] and [BaseException].
    - What FastAPI does around the code of the scaffold (turning an
      [HTTPException] into a response, calling the registered handler for
      [Exception]) is written out as [http_exception_handler] and
      [server_errors]; path matching is not modelled, a request comes with
      the route it was matched to. *)

From Stdlib Require Import ZArith QArith String Ascii List Bool Lia.
From stdpp Require Import base option gmap strings list pretty.

Open Scope Z_scope.
Open Scope string_scope.

(* ------------------------------------------------------------------ *)
(** ** Python string helpers used by [create_app] *)
(* ------------------------------------------------------------------ *)

Module Py.

(** [str.isspace] on the ASCII range: TAB, LF, VT, FF, CR, FS, GS, RS, US
    and SPACE. *)
Definition isspace (c : ascii) : bool :=
  let n := N_of_ascii c in
  ((9 <=? n)%N && (n <=? 13)%N) || ((28 <=? n)%N && (n <=? 32)%N).

Fixpoint lstrip (s : string) : string :=
  match s with
  | EmptyString => EmptyString
  | String c s' => if isspace c then lstrip s' else s
  end.

Definition rstrip (s : string) : string :=
  String.rev (lstrip (String.rev s)).

(** [s.strip()] *)
Definition strip (s : string) : string := rstrip (lstrip s).

(** [s.split(sep)] for a one-character separator: never returns the
    empty list, [''.split(',') == ['']]. *)
Fixpoint split (sep : ascii) (s : string) : list string :=
  match s with
  | EmptyString => [EmptyString]
  | String c s' =>
      if Ascii.eqb c sep then EmptyString :: split sep s'
      else match split sep s' with
           | [] => [String c EmptyString]
           | h :: t => String c h :: t
           end
  end.

(** Truthiness of a [str]: non-empty. *)
Definition truthy (s : string) : bool :=
  match s with EmptyString => false | _ => true end.

(** [[x.strip() for x in s.split(",") if x.strip()]] *)
Definition comma_list (s : string) : list string :=
  omap (fun x => if truthy (strip x) then Some (strip x) else None)
       (split "," s).

(** [int(x)] on a float: truncation toward zero. *)
Definition int (q : Q) : Z := Z.quot (Qnum q) (Zpos (Qden q)).

(** [str(n)] on an [int]. *)
Definition str (n : Z) : string := pretty n.

End Py.

(* ------------------------------------------------------------------ *)
(** ** Configuration *)
(* ------------------------------------------------------------------ *)

Record Settings := mkSettings {
  SERVICE_NAME : string;
  ENVIRONMENT : string;
  DEBUG : bool;
  CORS_ORIGINS : string;
  METRICS_ENABLED : bool;
  DATABASE_DSN : option string;
  REDIS_DSN : option string;
  OTEL_ENABLED : bool;
  SENTRY_DSN : option string;
  HOST : string;
  PORT : Z
}.

(** The names [Settings] reads, one per field ([case_sensitive = True]). *)
Definition settings_env_names : list string :=
  [ "SERVICE_NAME"; "ENVIRONMENT"; "DEBUG"; "CORS_ORIGINS"; "METRICS_ENABLED";
    "DATABASE_DSN"; "REDIS_DSN"; "OTEL_ENABLED"; "SENTRY_DSN"; "HOST"; "PORT" ].

Section SettingsLoader.

(** pydantic's coercions of a raw value to [bool] and to [int]; [None] is
    a validation error.  They belong to the library, not to the scaffold. *)
Variable coerce_bool : string -> option bool.
Variable coerce_int : string -> option Z.

(** The process environment and the contents of [env_file = ".env"]. *)
Variable environ : gmap string string.
Variable dotenv : gmap string string.

(** A variable of the environment shadows the same name in [.env]. *)
Definition raw (name : string) : option string :=
  (environ ∪ dotenv) !! name.

Definition str_field (dflt : string) (name : string) : string :=
  default dflt (raw name).

Definition opt_str_field (name : string) : option string := raw name.

Definition bool_field (dflt : bool) (name : string) : option bool :=
  match raw name with
  | None => Some dflt
  | Some v => coerce_bool v
  end.

Definition int_field (dflt : Z) (name : string) : option Z :=
  match raw name with
  | None => Some dflt
  | Some v => coerce_int v
  end.

(** [Settings()]: every field is its [Field(default, env=...)] default
    unless the name is set; [None] stands for the validation error raised
    when a set value cannot be coerced. *)
Definition Settings_init : option Settings :=
  match bool_field false "DEBUG",
        bool_field true "METRICS_ENABLED",
        bool_field false "OTEL_ENABLED",
        int_field 8000 "PORT" with
  | Some debug, Some metrics, Some otel, Some port =>
      Some {| SERVICE_NAME := str_field "prodstarter-fastapi" "SERVICE_NAME";
              ENVIRONMENT := str_field "production" "ENVIRONMENT";
              DEBUG := debug;
              CORS_ORIGINS := str_field "" "CORS_ORIGINS";
              METRICS_ENABLED := metrics;
              DATABASE_DSN := opt_str_field "DATABASE_DSN";
              REDIS_DSN := opt_str_field "REDIS_DSN";
              OTEL_ENABLED := otel;
              SENTRY_DSN := opt_str_field "SENTRY_DSN";
              HOST := str_field "0.0.0.0" "HOST";
              PORT := port |}
  | _, _, _, _ => None
  end.

(** [os.environ.get("TRUSTED_HOSTS", "*")]: read from the process
    environment only. *)
Definition TRUSTED_HOSTS : string := default "*" (environ !! "TRUSTED_HOSTS").

End SettingsLoader.

(** The middleware stack [create_app] installs, as far as the settings
    decide it. *)
Record MiddlewareConfig := mkMiddlewareConfig {
  cors_allow_origins : option (list string);   (* [None]: no CORS middleware *)
  gzip_minimum_size : Z;
  trusted_allowed_hosts : option (list string) (* [None]: no host filtering *)
}.

Definition cors_origins (settings : Settings) : list string :=
  if Py.truthy (CORS_ORIGINS settings)
  then Py.comma_list (CORS_ORIGINS settings)
  else if DEBUG settings then ["*"] else [].

Definition create_app_middleware (settings : Settings)
    (environ : gmap string string) : MiddlewareConfig :=
  let origins := cors_origins settings in
  {| cors_allow_origins :=
       match origins with [] => None | _ => Some origins end;
     gzip_minimum_size := 500;
     trusted_allowed_hosts :=
       if negb (DEBUG settings)
       then Some (Py.comma_list (TRUSTED_HOSTS environ))
       else None |}.

(* ------------------------------------------------------------------ *)
(** ** Values that cross the HTTP boundary *)
(* ------------------------------------------------------------------ *)

(** JSON content of a response, with the object keys in insertion order. *)
#[local] Set Warnings "-register-all".
Inductive json :=
| JNull
| JBool (b : bool)
| JInt (n : Z)
| JStr (s : string)
| JObj (fields : list (string * json)).

(** [content[key]] on a JSON object. *)
Definition json_get (key : string) (j : json) : option json :=
  match j with
  | JObj fields => snd <$> List.find (fun kv => String.eqb (fst kv) key) fields
  | _ => None
  end.

Inductive Body :=
| JSONBody (content : json)
| TextBody (text : string).

Record Response := mkResponse {
  status_code : Z;
  body : Body
}.

(** [JSONResponse(status_code=..., content=...)] *)
Definition JSONResponse (code : Z) (content : json) : Response :=
  {| status_code := code; body := JSONBody content |}.

(** [PlainTextResponse(text)]: the status defaults to 200. *)
Definition PlainTextResponse (text : string) : Response :=
  {| status_code := 200; body := TextBody text |}.

(** What the instrumentation reads of a request. *)
Record Request := mkRequest {
  method : string;
  url_path : string
}.

(** Exceptions.  [except Exception] catches the first two kinds only;
    [KeyboardInterrupt], [SystemExit] and [asyncio.CancelledError] derive
    from [BaseException] alone. *)
Inductive exn :=
| HTTPException (code : Z) (detail : string)
| Exception (cls : string) (text : string)
| BaseException (cls : string) (text : string).

Definition is_Exception (e : exn) : bool :=
  match e with
  | BaseException _ _ => false
  | _ => true
  end.

(** [str(exc)]; for [HTTPException] the framework's own rendering. *)
Definition exc_str (e : exn) : string :=
  match e with
  | HTTPException code detail => Py.str code ++ ": " ++ detail
  | Exception _ text => text
  | BaseException _ text => text
  end.

(** Reading a local name that no executed statement has bound. *)
Definition UnboundLocalError (name : string) : exn :=
  Exception "UnboundLocalError"
    ("local variable '" ++ name ++ "' referenced before assignment").

(* ------------------------------------------------------------------ *)
(** ** Process-wide state *)
(* ------------------------------------------------------------------ *)

Inductive Level := INFO | ERROR.

Inductive LogValue :=
| VStr (s : string)
| VInt (n : Z)
| VNone.

Definition VOptStr (o : option string) : LogValue :=
  match o with Some s => VStr s | None => VNone end.

(** One structured log line: level, event name, key/value context. *)
Record LogRecord := mkLogRecord {
  level : Level;
  event : string;
  context : list (string * LogValue)
}.

(** The placeholder DB client: [self.dsn], [self.connected]. *)
Record Database := mkDatabase {
  dsn : option string;
  connected : bool
}.

(** Label values of [REQUEST_COUNT]: method, endpoint, http_status. *)
Abbreviation Labels := (string * string * string)%type.

Record World := mkWorld {
  _db : option Database;                (* the module-level singleton *)
  REQUEST_COUNT : gmap Labels nat;      (* http_requests_total *)
  REQUEST_LATENCY : gmap string Q;      (* http_request_latency_seconds *)
  log : list LogRecord;                 (* lines emitted so far, oldest first *)
  clock : nat -> Q;                     (* successive readings of time.time() *)
  ticks : nat                           (* readings taken so far *)
}.

Definition set_db (d : option Database) (w : World) : World :=
  {| _db := d; REQUEST_COUNT := REQUEST_COUNT w;
     REQUEST_LATENCY := REQUEST_LATENCY w; log := log w;
     clock := clock w; ticks := ticks w |}.

Definition set_REQUEST_COUNT (c : gmap Labels nat) (w : World) : World :=
  {| _db := _db w; REQUEST_COUNT := c;
     REQUEST_LATENCY := REQUEST_LATENCY w; log := log w;
     clock := clock w; ticks := ticks w |}.

Definition set_REQUEST_LATENCY (g : gmap string Q) (w : World) : World :=
  {| _db := _db w; REQUEST_COUNT := REQUEST_COUNT w;
     REQUEST_LATENCY := g; log := log w;
     clock := clock w; ticks := ticks w |}.

Definition set_log (l : list LogRecord) (w : World) : World :=
  {| _db := _db w; REQUEST_COUNT := REQUEST_COUNT w;
     REQUEST_LATENCY := REQUEST_LATENCY w; log := l;
     clock := clock w; ticks := ticks w |}.

Definition set_ticks (n : nat) (w : World) : World :=
  {| _db := _db w; REQUEST_COUNT := REQUEST_COUNT w;
     REQUEST_LATENCY := REQUEST_LATENCY w; log := log w;
     clock := clock w; ticks := n |}.

(** The value of the counter sample for a label triple; a sample that was
    never touched reads 0. *)
Definition count_of (l : Labels) (w : World) : nat :=
  default 0%nat (REQUEST_COUNT w !! l).

(* ------------------------------------------------------------------ *)
(** ** The state-and-exception monad *)
(* ------------------------------------------------------------------ *)

Inductive Result (A : Type) :=
| Return (a : A)
| Raise (e : exn).
Arguments Return {A} a.
Arguments Raise {A} e.

Definition M (A : Type) : Type := World -> World * Result A.

Definition ret {A} (a : A) : M A := fun w => (w, Return a).

Definition raise {A} (e : exn) : M A := fun w => (w, Raise e).

Definition bind {A B} (m : M A) (k : A -> M B) : M B :=
  fun w =>
    match m w with
    | (w', Return a) => k a w'
    | (w', Raise e) => (w', Raise e)
    end.

Notation "'let*' x ':=' m 'in' k" := (bind m (fun x => k))
  (at level 10, x name, m at level 100, k at level 200, only parsing).
Notation "m1 ';;' m2" := (bind m1 (fun _ => m2))
  (at level 100, m2 at level 200, right associativity, only parsing).

(** [try: body / except Exception: handler e]: a [BaseException] that does
    not derive from [Exception] passes through. *)
Definition try_except_Exception {A} (body : M A) (handler : exn -> M A) : M A :=
  fun w =>
    match body w with
    | (w', Raise e) => if is_Exception e then handler e w' else (w', Raise e)
    | r => r
    end.

(** A library call that the environment makes fail: [Some e] raises [e]
    before the call has any effect. *)
Definition failing {A} (fault : option exn) (call : M A) : M A :=
  match fault with
  | Some e => raise e
  | None => call
  end.

(** [time.time()] *)
Definition time_time : M Q :=
  fun w => (set_ticks (S (ticks w)) w, Return (clock w (ticks w))).

(** [logger.info(event, **context)] and [logger.error(event, **context)] *)
Definition logger_emit (lvl : Level) (ev : string)
    (ctx : list (string * LogValue)) : M unit :=
  fun w => (set_log (log w ++ [mkLogRecord lvl ev ctx]) w, Return tt).

Definition logger_info := logger_emit INFO.
Definition logger_error := logger_emit ERROR.

(** [REQUEST_COUNT.labels(method, endpoint, http_status).inc()] *)
Definition REQUEST_COUNT_inc (l : Labels) : M unit :=
  fun w => (set_REQUEST_COUNT (<[l := S (count_of l w)]> (REQUEST_COUNT w)) w,
            Return tt).

(** [REQUEST_LATENCY.labels(endpoint).set(latency)] *)
Definition REQUEST_LATENCY_set (endpoint : string) (latency : Q) : M unit :=
  fun w => (set_REQUEST_LATENCY (<[endpoint := latency]> (REQUEST_LATENCY w)) w,
            Return tt).

(** [try: m / finally: ...] is written [attempt m], the [finally] block,
    [resume]: the outcome of [m], a value or an exception in flight, is kept
    while the [finally] block runs and goes on once the block is through.
    An exception raised by the block itself goes on instead. *)
Definition attempt {A} (m : M A) : M (Result A) :=
  fun w => let '(w', r) := m w in (w', Return r).

Definition resume {A} (pending : Result A) : M A :=
  fun w => (w, pending).

(** Reading a local variable: unbound names raise [UnboundLocalError]. *)
Definition read_local {A} (name : string) (binding : option A) : M A :=
  match binding with
  | Some a => ret a
  | None => raise (UnboundLocalError name)
  end.

(* ------------------------------------------------------------------ *)
(** ** Dependency placeholders *)
(* ------------------------------------------------------------------ *)

(** [Database.__init__] *)
Definition Database_init (dsn0 : option string) : Database :=
  {| dsn := dsn0; connected := false |}.

(** The methods return the object as the call leaves it. *)
Definition connect (self : Database) : M Database :=
  logger_info "database.connecting" [("dsn", VOptStr (dsn self))];;
  ret {| dsn := dsn self; connected := true |}.

Definition disconnect (self : Database) : M Database :=
  logger_info "database.disconnecting" [];;
  ret {| dsn := dsn self; connected := false |}.

Definition is_healthy (self : Database) : M bool :=
  ret (connected self).

(** The state machine of the handle. *)
Inductive DbState := Connected | Disconnected.

Definition state_of (db : Database) : DbState :=
  if connected db then Connected else Disconnected.

(** [global _db]: reading the name, binding it, and calling a mutating
    method on the object it is bound to. *)
Definition read_db : M (option Database) :=
  fun w => (w, Return (_db w)).

Definition bind_db (db : Database) : M unit :=
  fun w => (set_db (Some db) w, Return tt).

Definition on_db (meth : Database -> M Database) : M unit :=
  let* cur := read_db in
  match cur with
  | Some db => let* db' := meth db in bind_db db'
  | None => raise (Exception "AttributeError" "'NoneType' object has no such attribute")
  end.

Section App.

Variable settings : Settings.
Variable START_TIME : Q.

(** The [if _db is None:] block shared by [get_db] and [on_startup]. *)
Definition ensure_db : M unit :=
  let* cur := read_db in
  match cur with
  | None =>
      bind_db (Database_init (DATABASE_DSN settings));;
      on_db connect
  | Some _ => ret tt
  end.

(** [get_db]: what the generator yields.  Its [finally: pass] does
    nothing once the request is over.  The [None] branch is what a handler
    would meet on an unbound handle; [ensure_db] rules it out. *)
Definition get_db : M Database :=
  ensure_db;;
  let* cur := read_db in
  match cur with
  | Some db => ret db
  | None => raise (Exception "AttributeError" "'NoneType' object has no such attribute")
  end.

(** [db: Database = Depends(get_db)] *)
Definition Depends_get_db {A} (handler : Database -> M A) : M A :=
  let* db := get_db in handler db.

(* ---------------------------------------------------------------- *)
(** *** Route handlers *)

(** A handler that returns a [dict] is answered with status 200 and the
    dict as JSON. *)
Definition root : M Response :=
  ret (JSONResponse 200
         (JObj [("service", JStr (SERVICE_NAME settings));
                ("environment", JStr (ENVIRONMENT settings))])).

Definition get_item (item_id : Z) (db : Database) : M Response :=
  let* healthy := is_healthy db in
  if negb healthy
  then raise (HTTPException 503 "database unavailable")
  else ret (JSONResponse 200
              (JObj [("item_id", JInt item_id);
                     ("name", JStr "example");
                     ("db", JBool healthy)])).

Definition health (db : Database) : M Response :=
  let* db_ok := is_healthy db in
  let status := if db_ok then "ok" else "fail" in
  let code := if db_ok then 200 else 503 in
  let* now := time_time in
  ret (JSONResponse code
         (JObj [("status", JStr status);
                ("checks",
                 JObj [("database", JStr (if db_ok then "ok" else "unhealthy"))]);
                ("uptime_seconds", JInt (Py.int (now - START_TIME)))])).

Definition live : M Response :=
  ret (PlainTextResponse "alive").

Definition ready (db : Database) : M Response :=
  let* ok := is_healthy db in
  if ok then ret (PlainTextResponse "ready")
  else raise (HTTPException 503 "not ready").

(** The routes of the application. *)
Inductive Endpoint :=
| Root
| GetItem (item_id : Z)
| Health
| Live
| Ready.

Definition endpoint (ep : Endpoint) : M Response :=
  match ep with
  | Root => root
  | GetItem item_id => Depends_get_db (get_item item_id)
  | Health => Depends_get_db health
  | Live => live
  | Ready => Depends_get_db ready
  end.

(** The framework's handler for [HTTPException], which sits between the
    routes and the user middleware: the exception becomes a JSON response
    with the exception's status and [{"detail": detail}]. *)
Definition http_exception_handler (route : M Response) : M Response :=
  fun w =>
    match route w with
    | (w', Raise (HTTPException code detail)) =>
        (w', Return (JSONResponse code (JObj [("detail", JStr detail)])))
    | r => r
    end.

(** A route as the middleware sees it through [call_next]. *)
Definition route_response (ep : Endpoint) : M Response :=
  http_exception_handler (endpoint ep).

(* ---------------------------------------------------------------- *)
(** *** Exception handler *)

Definition generic_exception_handler (request : Request) (exc : exn)
    : M Response :=
  logger_error "unhandled_exception"
    [("path", VStr (url_path request)); ("error", VStr (exc_str exc))];;
  if DEBUG settings
  then ret (JSONResponse 500 (JObj [("detail", JStr (exc_str exc))]))
  else ret (JSONResponse 500 (JObj [("detail", JStr "Internal Server Error")])).

(** [@app.exception_handler(Exception)] is served by the outermost layer
    of the stack; the client receives the handler's response. *)
Definition server_errors (request : Request) (inner : M Response)
    : M Response :=
  try_except_Exception inner (generic_exception_handler request).

(* ---------------------------------------------------------------- *)
(** *** Request instrumentation middleware *)

(** What the metrics and logging libraries do to the three calls of the
    recording block on one request: [None] lets the call through, [Some e]
    makes it raise [e]. *)
Record Faults := mkFaults {
  inc_fault : option exn;   (* REQUEST_COUNT.labels(...).inc() *)
  set_fault : option exn;   (* REQUEST_LATENCY.labels(...).set(...) *)
  log_fault : option exn    (* logger.info("http.request", ...) *)
}.

Definition no_faults : Faults :=
  {| inc_fault := None; set_fault := None; log_fault := None |}.

(** A fault that [except Exception] catches, or no fault at all. *)
Definition caught_by_except_Exception (fault : option exn) : bool :=
  match fault with
  | Some e => is_Exception e
  | None => true
  end.

(** The binding of the local [status_code] when control reaches
    [finally]: set after a response, set to 500 by [except Exception],
    unbound when the exception in flight is not an [Exception]. *)
Definition status_code_binding (pending : Result Response) : option Z :=
  match pending with
  | Return response => Some (status_code response)
  | Raise e => if is_Exception e then Some 500 else None
  end.

(** The body of the [finally] block. *)
Definition record_request (faults : Faults) (method0 endpoint0 : string)
    (status_code0 : option Z) (start : Q) : M unit :=
  let* now := time_time in
  let latency := (now - start)%Q in
  try_except_Exception
    (let* code := read_local "status_code" status_code0 in
     failing (inc_fault faults)
       (REQUEST_COUNT_inc (method0, endpoint0, Py.str code));;
     failing (set_fault faults)
       (REQUEST_LATENCY_set endpoint0 latency))
    (fun _ => ret tt);;
  let* code := read_local "status_code" status_code0 in
  failing (log_fault faults)
    (logger_info "http.request"
       [("method", VStr method0);
        ("path", VStr endpoint0);
        ("status_code", VInt code);
        ("latency_ms", VInt (Py.int (latency * 1000)))]).

Definition add_metrics_and_logging (faults : Faults) (request : Request)
    (call_next : Request -> M Response) : M Response :=
  let* start := time_time in
  let endpoint0 := url_path request in
  let method0 := method request in
  (* try: ... / except Exception: status_code = 500; raise *)
  let* pending := attempt (call_next request) in
  (* finally: *)
  record_request faults method0 endpoint0 (status_code_binding pending) start;;
  (* [return response], or the exception in flight goes on *)
  resume pending.

(* ---------------------------------------------------------------- *)
(** *** Startup and shutdown hooks *)

Definition truthy_opt (o : option string) : bool :=
  match o with Some s => Py.truthy s | None => false end.

Definition on_startup : M unit :=
  logger_info "startup.begin"
    [("service", VStr (SERVICE_NAME settings));
     ("environment", VStr (ENVIRONMENT settings))];;
  ensure_db;;
  (if OTEL_ENABLED settings then logger_info "otel.enabled" [] else ret tt);;
  (if truthy_opt (SENTRY_DSN settings)
   then logger_info "sentry.enabled" [] else ret tt);;
  logger_info "startup.complete" [].

Definition on_shutdown : M unit :=
  logger_info "shutdown.begin" [];;
  (let* cur := read_db in
   match cur with
   | Some _ => on_db disconnect
   | None => ret tt
   end);;
  logger_info "shutdown.complete" [].

(* ---------------------------------------------------------------- *)
(** *** The assembled application *)

(** One request through the stack: exception handler, instrumentation
    middleware, [HTTPException] handler, route. *)
Definition app (faults : Faults) (request : Request) (ep : Endpoint)
    : M Response :=
  server_errors request
    (add_metrics_and_logging faults request
       (fun _ => route_response ep)).

(** What happens to the process, one event at a time. *)
Inductive Event :=
| Startup
| Shutdown
| Serve (faults : Faults) (request : Request) (ep : Endpoint).

Definition step (ev : Event) (w : World) : World :=
  match ev with
  | Startup => fst (on_startup w)
  | Shutdown => fst (on_shutdown w)
  | Serve faults request ep => fst (app faults request ep w)
  end.

Definition run (trace : list Event) (w : World) : World :=
  fold_left (fun w ev => step ev w) trace w.

End App.

(** The process right after import: no handle, untouched instruments, an
    empty log. *)
Definition initial_world (clock0 : nat -> Q) : World :=
  {| _db := None; REQUEST_COUNT := ∅; REQUEST_LATENCY := ∅; log := [];
     clock := clock0; ticks := 0 |}.

(** No handle yet, or a Connected one: the states a process can be in as
    long as nothing has called [disconnect()]. *)
Definition never_disconnected (w : World) : Prop :=
  match _db w with
  | Some db => connected db = true
  | None => True
  end.

(** The routes that depend on the database. *)
Definition uses_db (ep : Endpoint) : bool :=
  match ep with
  | GetItem _ | Health | Ready => true
  | Root | Live => false
  end.

(* ------------------------------------------------------------------ *)
(** ** Sample data for concrete runs *)
(* ------------------------------------------------------------------ *)

(** A clock that advances one second per reading. *)
Definition sample_clock (n : nat) : Q := inject_Z (Z.of_nat n).

Definition fresh_world : World := initial_world sample_clock.

Definition production_settings : Settings :=
  {| SERVICE_NAME := "prodstarter-fastapi"; ENVIRONMENT := "production";
     DEBUG := false; CORS_ORIGINS := ""; METRICS_ENABLED := true;
     DATABASE_DSN := None; REDIS_DSN := None; OTEL_ENABLED := false;
     SENTRY_DSN := None; HOST := "0.0.0.0"; PORT := 8000 |}.

Definition debug_settings : Settings :=
  {| SERVICE_NAME := "prodstarter-fastapi"; ENVIRONMENT := "dev";
     DEBUG := true; CORS_ORIGINS := ""; METRICS_ENABLED := true;
     DATABASE_DSN := None; REDIS_DSN := None; OTEL_ENABLED := false;
     SENTRY_DSN := None; HOST := "0.0.0.0"; PORT := 8000 |}.

Definition GET (path : string) : Request :=
  {| method := "GET"; url_path := path |}.

(** The metrics library refuses both calls; the log sink is broken. *)
Definition metrics_down : Faults :=
  {| inc_fault := Some (Exception "ValueError" "Incorrect label count");
     set_fault := Some (Exception "ValueError" "Incorrect label count");
     log_fault := None |}.

Definition log_down : Faults :=
  {| inc_fault := None; set_fault := None;
     log_fault := Some (Exception "OSError" "Broken pipe") |}.

(** A route whose task is cancelled while it runs. *)
Definition cancelled_route : Request -> M Response :=
  fun _ => raise (BaseException "CancelledError" "").

(** A route that fails with an ordinary exception. *)
Definition failing_route : Request -> M Response :=
  fun _ => raise (Exception "KeyError" "'sku'").

(** A world whose handle exists and has been disconnected. *)
Definition stopped_world : World :=
  set_db (Some {| dsn := None; connected := false |}) fresh_world.

(* ------------------------------------------------------------------ *)
(** ** Vocabulary for the properties of the scaffold *)
(* ------------------------------------------------------------------ *)







(** How many times the log shows [Database.connect] being entered. *)
Definition is_connect_record (r : LogRecord) : bool :=
  String.eqb (event r) "database.connecting".

Definition connect_calls (l : list LogRecord) : nat :=
  length (List.filter is_connect_record l).

(** 1 when [_db] is bound, 0 when it is not. *)
Definition handles (w : World) : nat :=
  match _db w with
  | Some _ => 1%nat
  | None => 0%nat
  end.

(** The disconnected version of a handle. *)
Definition closed (db : Database) : Database :=
  {| dsn := dsn db; connected := false |}.

(** The label triple under which a response to [request] is counted. *)
Definition labels_of (request : Request) (code : Z) : Labels :=
  (method request, url_path request, Py.str code).

(** The life of the handle as a machine over the kinds of events: an
    unbound name is bound to a Connected handle by a startup or by a request
    to a route that depends on the database; a shutdown closes a bound
    handle; nothing else moves it. *)
Definition binds_handle (ev : Event) : bool :=
  match ev with
  | Startup => true
  | Shutdown => false
  | Serve _ _ ep => uses_db ep
  end.

Definition handle_next (settings : Settings) (cur : option Database)
    (ev : Event) : option Database :=
  match ev with
  | Shutdown => closed <$> cur
  | _ =>
      match cur with
      | None =>
          if binds_handle ev
          then Some {| dsn := DATABASE_DSN settings; connected := true |}
          else None
      | Some db => Some db
      end
  end.


(** The requests of a history. *)
Definition is_request (ev : Event) : bool :=
  match ev with
  | Serve _ _ _ => true
  | _ => false
  end.

Definition requests (trace : list Event) : nat :=
  length (List.filter is_request trace).

(* ------------------------------------------------------------------ *)
(** ** Basic facts about the embedding *)
(* ------------------------------------------------------------------ *)

(** The handle [db] in state [Connected] or not, as a boolean. *)
Lemma state_of_Connected (db : Database) :
  state_of db = Connected <-> connected db = true.
Proof.
  unfold state_of. destruct (connected db); split; congruence.
Qed.

Lemma state_of_Disconnected (db : Database) :
  state_of db = Disconnected <-> connected db = false.
Proof.
  unfold state_of. destruct (connected db); split; congruence.
Qed.

(** [get_db] case by case on the binding of [_db]. *)
Lemma get_db_unbound (settings : Settings) (w : World) :
  _db w = None ->
  get_db settings w =
    (set_db (Some {| dsn := DATABASE_DSN settings; connected := true |})
       (set_log (log w ++ [mkLogRecord INFO "database.connecting"
                             [("dsn", VOptStr (DATABASE_DSN settings))]]) w),
     Return {| dsn := DATABASE_DSN settings; connected := true |}).
Proof.
  intros Hdb. unfold get_db, ensure_db, bind, read_db. rewrite Hdb.
  reflexivity.
Qed.

Lemma get_db_bound (settings : Settings) (w : World) (db : Database) :
  _db w = Some db -> get_db settings w = (w, Return db).
Proof.
  intros Hdb. unfold get_db, ensure_db, bind, read_db, ret. rewrite Hdb.
  simpl. rewrite Hdb. reflexivity.
Qed.

(** [get_db] never raises, and what it yields is the object bound to
    [_db]: the handler reads the shared handle, not a copy of an older one. *)
Lemma get_db_yields_bound (settings : Settings) (w : World) :
  exists w1 db,
    get_db settings w = (w1, Return db) /\ _db w1 = Some db /\
    match _db w with
    | Some db0 => db = db0 /\ w1 = w
    | None => connected db = true
    end.
Proof.
  destruct (_db w) as [db0|] eqn:Hdb.
  - exists w, db0. rewrite (get_db_bound _ _ _ Hdb). auto.
  - eexists _, _. rewrite (get_db_unbound _ _ Hdb).
    split; [reflexivity|]. split; reflexivity.
Qed.

(* ------------------------------------------------------------------ *)
(** ** The database stub *)
(* ------------------------------------------------------------------ *)

(** C6. For every handle in any state: [connect()] leaves it Connected,
    and calling it on a Connected handle leaves it as it was (idempotent);
    [disconnect()] leaves it Disconnected; [is_healthy()] returns true
    exactly when the handle is Connected, and changes nothing. *)
Theorem database_state_machine (db : Database) (w : World) :
  (exists w1 db1,
      connect db w = (w1, Return db1) /\ state_of db1 = Connected /\
      dsn db1 = dsn db /\
      (state_of db = Connected -> db1 = db) /\
      exists w2, connect db1 w1 = (w2, Return db1)) /\
  (exists w1 db1,
      disconnect db w = (w1, Return db1) /\ state_of db1 = Disconnected /\
      dsn db1 = dsn db) /\
  (exists b,
      is_healthy db w = (w, Return b) /\
      (b = true <-> state_of db = Connected)).
Proof.
  destruct db as [d c]. repeat split.
  - eexists _, _. split; [reflexivity|]. repeat split.
    + intros Hc. apply state_of_Connected in Hc. simpl in Hc. now subst c.
    + eexists. reflexivity.
  - eexists _, _. split; [reflexivity|]. split; reflexivity.
  - exists c. split; [reflexivity|].
    rewrite state_of_Connected. reflexivity.
Qed.

(** A connect/disconnect round trip on a concrete handle. *)
Example database_round_trip :
  let db0 := Database_init (Some "postgres://db") in
  state_of db0 = Disconnected /\
  snd ((let* a := connect db0 in
        let* b := disconnect a in
        let* c := connect b in
        is_healthy c) fresh_world) = Return true.
Proof. split; reflexivity. Qed.

Lemma database_state_machine_witness :
  let db := {| dsn := Some "postgres://db"; connected := true |} in
  state_of db = Connected /\
  exists w1, connect db fresh_world = (w1, Return db).
Proof.
  intros db.
  destruct (database_state_machine db fresh_world)
    as [(w1 & db1 & Hrun & _ & _ & Hidem & _) _].
  split; [reflexivity|].
  exists w1. rewrite Hrun. rewrite (Hidem eq_refl). reflexivity.
Defined.

(* ------------------------------------------------------------------ *)
(** ** Probes and the example route *)
(* ------------------------------------------------------------------ *)

(** C9. [GET /live] answers 200 with the constant body "alive" in every
    world, whatever the handle is (Connected, Disconnected, never created),
    reads nothing of the world and leaves it as it was. *)
Theorem live_always_alive (settings : Settings) (START_TIME : Q) (w : World) :
  exists r,
    route_response settings START_TIME Live w = (w, Return r) /\
    live w = (w, Return r) /\
    status_code r = 200 /\ body r = TextBody "alive" /\
    forall w', snd (live w') = Return r.
Proof.
  exists (PlainTextResponse "alive"). repeat split.
Qed.

(** The three database states, on concrete worlds. *)
Example live_in_each_db_state :
  let run := route_response production_settings 0 Live in
  snd (run fresh_world) = Return (PlainTextResponse "alive") /\
  snd (run stopped_world) = Return (PlainTextResponse "alive") /\
  snd (run (fst (on_startup production_settings fresh_world)))
    = Return (PlainTextResponse "alive").
Proof. repeat split. Qed.

(** C8. The shutdown hook never raises.  With no handle it takes the
    [None] branch and [_db] stays unbound; with a handle it calls
    [disconnect()] on it and leaves it Disconnected. *)
Theorem shutdown_safe (w : World) :
  exists w',
    on_shutdown w = (w', Return tt) /\
    match _db w with
    | None =>
        _db w' = None /\
        log w' = (log w ++ [mkLogRecord INFO "shutdown.begin" [];
                            mkLogRecord INFO "shutdown.complete" []])%list
    | Some db =>
        exists db', _db w' = Some db' /\ state_of db' = Disconnected /\
                    dsn db' = dsn db /\
                    log w' = (log w ++
                      [mkLogRecord INFO "shutdown.begin" [];
                       mkLogRecord INFO "database.disconnecting" [];
                       mkLogRecord INFO "shutdown.complete" []])%list
    end.
Proof.
  unfold on_shutdown, bind, read_db, logger_info, logger_emit. simpl.
  destruct (_db w) as [db|] eqn:Hdb.
  - unfold on_db, bind, read_db. simpl. rewrite Hdb. simpl.
    eexists. split; [reflexivity|]. simpl.
    eexists. split; [reflexivity|]. repeat split.
    rewrite <- !app_assoc. reflexivity.
  - eexists. split; [reflexivity|]. simpl. split; [assumption|].
    rewrite <- app_assoc. reflexivity.
Qed.

(** The hook on a process that never created a handle, and on one that
    went through startup. *)
Example shutdown_without_handle :
  snd (on_shutdown fresh_world) = Return tt /\
  _db (fst (on_shutdown fresh_world)) = None.
Proof. split; reflexivity. Qed.

Example shutdown_after_startup :
  let w := fst (on_startup production_settings fresh_world) in
  (state_of <$> _db w) = Some Connected /\
  snd (on_shutdown w) = Return tt /\
  (state_of <$> _db (fst (on_shutdown w))) = Some Disconnected.
Proof. repeat split. Qed.

(** C2. [GET /api/v1/items/{id}], for every integer id and every world:
    the handler sees the handle [get_db] yields; if that handle is not
    Connected the answer is 503 with "database unavailable", otherwise it
    is 200 with [{"item_id": id, "name": "example", "db": true}]. *)
Theorem get_item_reply (settings : Settings) (START_TIME : Q)
    (item_id : Z) (w : World) :
  exists w1 db r,
    get_db settings w = (w1, Return db) /\
    route_response settings START_TIME (GetItem item_id) w = (w1, Return r) /\
    match state_of db with
    | Connected =>
        r = JSONResponse 200
              (JObj [("item_id", JInt item_id); ("name", JStr "example");
                     ("db", JBool true)])
    | Disconnected =>
        status_code r = 503 /\
        body r = JSONBody (JObj [("detail", JStr "database unavailable")]) /\
        get_item item_id db w1
          = (w1, Raise (HTTPException 503 "database unavailable"))
    end.
Proof.
  destruct (get_db_yields_bound settings w) as (w1 & db & Hget & _ & _).
  exists w1, db.
  unfold route_response, http_exception_handler, endpoint, Depends_get_db, bind.
  rewrite Hget. unfold get_item, is_healthy, bind, ret, state_of.
  destruct (connected db); simpl; eexists; repeat split.
Qed.

Example get_item_42_connected :
  let w := fst (on_startup production_settings fresh_world) in
  snd (route_response production_settings 0 (GetItem 42) w)
  = Return (JSONResponse 200
              (JObj [("item_id", JInt 42); ("name", JStr "example");
                     ("db", JBool true)])).
Proof. reflexivity. Qed.

Example get_item_42_disconnected :
  snd (route_response production_settings 0 (GetItem 42) stopped_world)
  = Return (JSONResponse 503 (JObj [("detail", JStr "database unavailable")])).
Proof. reflexivity. Qed.

(** C1. [GET /health] and [GET /ready], for every world: the status is 200
    exactly when the handle is Connected at the moment the handler checks
    it (the handle [get_db] yields), and 503 otherwise.  The [/health] body
    always carries [uptime_seconds], and its [status] is "ok" on 200 and
    "fail" on 503. *)
Theorem health_ready_status (settings : Settings) (START_TIME : Q) (w : World) :
  exists w1 db,
    get_db settings w = (w1, Return db) /\
    (exists w2 r,
        route_response settings START_TIME Health w = (w2, Return r) /\
        (status_code r = 200 <-> state_of db = Connected) /\
        (state_of db <> Connected -> status_code r = 503) /\
        (exists content,
            body r = JSONBody content /\
            json_get "uptime_seconds" content
              = Some (JInt (Py.int (clock w1 (ticks w1) - START_TIME))) /\
            json_get "status" content
              = Some (JStr (if (status_code r =? 200)%Z then "ok" else "fail")))) /\
    (exists r,
        route_response settings START_TIME Ready w = (w1, Return r) /\
        (status_code r = 200 <-> state_of db = Connected) /\
        (state_of db <> Connected -> status_code r = 503)).
Proof.
  destruct (get_db_yields_bound settings w) as (w1 & db & Hget & _ & _).
  exists w1, db. split; [exact Hget|].
  unfold route_response, http_exception_handler, endpoint, Depends_get_db, bind.
  rewrite Hget.
  unfold health, ready, is_healthy, time_time, bind, ret, state_of.
  destruct (connected db); simpl; split.
  - eexists _, _. split; [reflexivity|]. simpl.
    repeat split; try congruence. eexists. repeat split.
  - eexists. split; [reflexivity|]. simpl. repeat split; congruence.
  - eexists _, _. split; [reflexivity|]. simpl.
    repeat split; try congruence. eexists. repeat split.
  - eexists. split; [reflexivity|]. simpl. repeat split; congruence.
Qed.

Lemma health_ready_status_witness :
  exists r,
    snd (route_response production_settings 0 Health stopped_world) = Return r /\
    status_code r = 503.
Proof.
  destruct (health_ready_status production_settings 0 stopped_world)
    as (w1 & db & Hget & (w2 & r & Hrun & _ & H503 & _) & _).
  cbv in Hget. injection Hget as <- <-.
  exists r. rewrite Hrun. split; [reflexivity|].
  apply H503. discriminate.
Defined.

Example health_body_connected :
  let w := fst (on_startup production_settings fresh_world) in
  snd (route_response production_settings 0 Health w)
  = Return (JSONResponse 200
              (JObj [("status", JStr "ok");
                     ("checks", JObj [("database", JStr "ok")]);
                     ("uptime_seconds", JInt 0)])).
Proof. reflexivity. Qed.

Example ready_disconnected :
  snd (route_response production_settings 0 Ready stopped_world)
  = Return (JSONResponse 503 (JObj [("detail", JStr "not ready")])).
Proof. reflexivity. Qed.

(* ------------------------------------------------------------------ *)
(** ** The global exception handler *)
(* ------------------------------------------------------------------ *)

(** C5. With debug disabled, the handler answers every exception with
    status 500 and body exactly [{"detail": "Internal Server Error"}]: the
    answer does not depend on the exception, so no part of its text can
    reach the body.  With debug enabled the body carries [str(exc)]. *)
Theorem generic_handler_hides_exception (settings : Settings)
    (request : Request) (exc : exn) (w : World) :
  (DEBUG settings = false ->
     snd (generic_exception_handler settings request exc w)
       = Return (JSONResponse 500 (JObj [("detail", JStr "Internal Server Error")]))
     /\ forall request' exc' w',
          snd (generic_exception_handler settings request' exc' w')
          = snd (generic_exception_handler settings request exc w)) /\
  (DEBUG settings = true ->
     snd (generic_exception_handler settings request exc w)
       = Return (JSONResponse 500 (JObj [("detail", JStr (exc_str exc))]))).
Proof.
  unfold generic_exception_handler, bind, logger_error, logger_emit, ret.
  split; intros Hdebug; rewrite Hdebug; simpl.
  - split; [reflexivity|]. intros. reflexivity.
  - reflexivity.
Qed.

Lemma generic_handler_hides_exception_witness :
  snd (generic_exception_handler production_settings (GET "/api/v1/items/7")
         (Exception "KeyError" "secret-token") fresh_world)
  = Return (JSONResponse 500 (JObj [("detail", JStr "Internal Server Error")]))
  /\
  snd (generic_exception_handler debug_settings (GET "/api/v1/items/7")
         (Exception "KeyError" "secret-token") fresh_world)
  = Return (JSONResponse 500 (JObj [("detail", JStr "secret-token")])).
Proof.
  split.
  - apply (generic_handler_hides_exception production_settings
             (GET "/api/v1/items/7") (Exception "KeyError" "secret-token")
             fresh_world).
    reflexivity.
  - apply (generic_handler_hides_exception debug_settings
             (GET "/api/v1/items/7") (Exception "KeyError" "secret-token")
             fresh_world).
    reflexivity.
Defined.

(** The same through the whole stack: an exception of a route that no
    inner layer turned into a response reaches the client as the generic
    500, and the log keeps its text. *)
Lemma unhandled_exception_reply (settings : Settings) (request : Request)
    (call_next : Request -> M Response) (cls text : string) (w w1 : World) :
  DEBUG settings = false ->
  call_next request (fst (time_time w)) = (w1, Raise (Exception cls text)) ->
  snd (server_errors settings request
         (add_metrics_and_logging no_faults request call_next) w)
  = Return (JSONResponse 500 (JObj [("detail", JStr "Internal Server Error")])).
Proof.
  intros Hdebug Hcall.
  unfold server_errors, try_except_Exception, add_metrics_and_logging, bind,
    attempt.
  simpl in *. rewrite Hcall. simpl.
  unfold generic_exception_handler, bind. simpl. rewrite Hdebug. reflexivity.
Qed.

(* ------------------------------------------------------------------ *)
(** ** Settings *)
(* ------------------------------------------------------------------ *)

Lemma raw_unset (environ dotenv : gmap string string) (name : string) :
  environ !! name = None -> dotenv !! name = None ->
  raw environ dotenv name = None.
Proof.
  intros He Hd. unfold raw. apply lookup_union_None. split; assumption.
Qed.

(** A name that is set in the environment wins over [.env]. *)
Lemma raw_environ_first (environ dotenv : gmap string string)
    (name v : string) :
  environ !! name = Some v -> raw environ dotenv name = Some v.
Proof.
  intros He. unfold raw. apply lookup_union_Some_l. exact He.
Qed.

(** C7. When none of the configuration names is set, neither in the
    environment nor in [.env], every field has its documented default, and
    [TRUSTED_HOSTS] defaults to "*" (so the allowed hosts are [["*"]] and no
    CORS middleware is installed).  The coercions are never consulted. *)
Theorem settings_defaults (coerce_bool : string -> option bool)
    (coerce_int : string -> option Z) (environ dotenv : gmap string string) :
  Forall (fun name => environ !! name = None /\ dotenv !! name = None)
         settings_env_names ->
  environ !! "TRUSTED_HOSTS" = None ->
  Settings_init coerce_bool coerce_int environ dotenv
  = Some {| SERVICE_NAME := "prodstarter-fastapi";
            ENVIRONMENT := "production";
            DEBUG := false;
            CORS_ORIGINS := "";
            METRICS_ENABLED := true;
            DATABASE_DSN := None;
            REDIS_DSN := None;
            OTEL_ENABLED := false;
            SENTRY_DSN := None;
            HOST := "0.0.0.0";
            PORT := 8000 |}
  /\ TRUSTED_HOSTS environ = "*"
  /\ forall settings,
       Settings_init coerce_bool coerce_int environ dotenv = Some settings ->
       create_app_middleware settings environ
       = {| cors_allow_origins := None;
            gzip_minimum_size := 500;
            trusted_allowed_hosts := Some ["*"] |}.
Proof.
  intros Hunset Hhosts.
  assert (Hraw : forall name, In name settings_env_names ->
                              raw environ dotenv name = None).
  { intros name Hin. rewrite Forall_forall in Hunset.
    destruct (Hunset name) as [He Hd].
    - apply list_elem_of_In. exact Hin.
    - apply raw_unset; assumption. }
  assert (Hinit : Settings_init coerce_bool coerce_int environ dotenv
                  = Some production_settings).
  { unfold Settings_init, bool_field, int_field, str_field, opt_str_field.
    rewrite !Hraw by (simpl; tauto). reflexivity. }
  split; [exact Hinit|]. split.
  - unfold TRUSTED_HOSTS. rewrite Hhosts. reflexivity.
  - intros settings Hs. rewrite Hinit in Hs. injection Hs as <-.
    unfold create_app_middleware, TRUSTED_HOSTS. rewrite Hhosts. reflexivity.
Qed.

Lemma settings_defaults_witness :
  let environ : gmap string string :=
    {[ "PATH" := "/usr/local/bin:/usr/bin" ; "HOME" := "/srv/app" ]} in
  Settings_init (fun _ => None) (fun _ => None) environ ∅
    = Some production_settings
  /\ TRUSTED_HOSTS environ = "*".
Proof.
  intros environ.
  destruct (settings_defaults (fun _ => None) (fun _ => None) environ ∅)
    as (Hinit & Hhosts & _).
  - repeat constructor.
  - reflexivity.
  - split; [exact Hinit | exact Hhosts].
Defined.

(** Set names are honoured, the environment first. *)
Example settings_from_environment :
  let environ : gmap string string :=
    {[ "DEBUG" := "true" ; "PORT" := "9000" ; "TRUSTED_HOSTS" := "a.example, b.example" ]} in
  let dotenv : gmap string string :=
    {[ "PORT" := "7000" ; "SERVICE_NAME" := "orders" ]} in
  let coerce_bool s := if String.eqb s "true" then Some true else None in
  let coerce_int s := if String.eqb s "9000" then Some 9000 else None in
  (PORT <$> Settings_init coerce_bool coerce_int environ dotenv) = Some 9000 /\
  (SERVICE_NAME <$> Settings_init coerce_bool coerce_int environ dotenv)
    = Some "orders" /\
  Py.comma_list (TRUSTED_HOSTS environ) = ["a.example"; "b.example"].
Proof. vm_compute. repeat split. Qed.

(* ------------------------------------------------------------------ *)
(** ** The instrumentation middleware *)
(* ------------------------------------------------------------------ *)

Lemma count_of_inc_same (l : Labels) (w : World) :
  count_of l (fst (REQUEST_COUNT_inc l w)) = S (count_of l w).
Proof.
  unfold count_of at 1. simpl. rewrite lookup_insert_eq. reflexivity.
Qed.

Lemma count_of_inc_other (l l' : Labels) (w : World) :
  l' <> l -> count_of l' (fst (REQUEST_COUNT_inc l w)) = count_of l' w.
Proof.
  intros Hne. unfold count_of. simpl.
  rewrite lookup_insert_ne by congruence. reflexivity.
Qed.

(** Normal operation: the route returned a response or raised an
    [Exception], and the three library calls went through.  The recording
    block runs once: the sample of (method, path, status) grows by exactly
    one and no other sample moves, the gauge of the path is set, one
    "http.request" line is appended, [_db] is untouched, and the outcome of
    the route is handed on unchanged (the response, or the same exception). *)
Lemma middleware_records_once (request : Request)
    (call_next : Request -> M Response) (w w1 : World)
    (pending : Result Response) (code : Z) :
  call_next request (fst (time_time w)) = (w1, pending) ->
  status_code_binding pending = Some code ->
  let labels := (method request, url_path request, Py.str code) in
  exists w2 latency,
    add_metrics_and_logging no_faults request call_next w = (w2, pending) /\
    count_of labels w2 = S (count_of labels w1) /\
    (forall l, l <> labels -> count_of l w2 = count_of l w1) /\
    REQUEST_LATENCY w2 = <[url_path request := latency]> (REQUEST_LATENCY w1) /\
    log w2 = (log w1 ++
              [mkLogRecord INFO "http.request"
                 [("method", VStr (method request));
                  ("path", VStr (url_path request));
                  ("status_code", VInt code);
                  ("latency_ms", VInt (Py.int (latency * 1000)))]])%list /\
    _db w2 = _db w1.
Proof.
  intros Hcall Hcode labels.
  unfold add_metrics_and_logging, bind, attempt. simpl in *.
  rewrite Hcall. unfold record_request, bind, try_except_Exception. simpl.
  rewrite Hcode. simpl.
  eexists _, _. split; [reflexivity|]. simpl. repeat split.
  - unfold count_of. simpl. rewrite lookup_insert_eq. reflexivity.
  - intros l Hne. subst labels. unfold count_of. simpl.
    rewrite lookup_insert_ne by congruence. reflexivity.
Qed.

(** C3. The request counter after a route that raises an exception which
    does not derive from [Exception] (a cancelled task, [SystemExit]):
    [except Exception] does not run, so [status_code] is unbound when
    [finally] starts.  The counter call fails on the unbound name and the
    failure is swallowed, so no sample is incremented; the log call fails
    on the same name outside the guarded block, so no line is written and
    the middleware raises [UnboundLocalError] in place of the original
    exception. *)
Theorem middleware_unbound_status_code (faults : Faults) (request : Request)
    (cls text : string) (w : World) :
  let call_next : Request -> M Response :=
    fun _ => raise (BaseException cls text) in
  exists w2,
    add_metrics_and_logging faults request call_next w
      = (w2, Raise (UnboundLocalError "status_code")) /\
    (forall l, count_of l w2 = count_of l w) /\
    REQUEST_LATENCY w2 = REQUEST_LATENCY w /\
    log w2 = log w /\
    Raise (A := Response) (UnboundLocalError "status_code")
      <> Raise (BaseException cls text).
Proof.
  intros call_next. subst call_next.
  unfold add_metrics_and_logging, record_request, try_except_Exception,
    bind, attempt, raise.
  simpl. eexists. split; [reflexivity|].
  repeat split. discriminate.
Qed.

(** The same on a concrete request, next to a route that raises an
    ordinary exception, where the 500 sample is counted and the exception
    goes on. *)
Example cancelled_request_not_counted :
  let w := fst (add_metrics_and_logging no_faults (GET "/api/v1/items/7")
                  cancelled_route fresh_world) in
  count_of ("GET", "/api/v1/items/7", "500") w = 0%nat /\
  REQUEST_COUNT w = ∅ /\ log w = [].
Proof. repeat split. Qed.

Example failed_request_counted :
  let boom : Request -> M Response :=
    fun _ => raise (Exception "KeyError" "'sku'") in
  let run := add_metrics_and_logging no_faults (GET "/api/v1/items/7") boom
               fresh_world in
  snd run = Raise (Exception "KeyError" "'sku'") /\
  count_of ("GET", "/api/v1/items/7", "500") (fst run) = 1%nat /\
  length (log (fst run)) = 1%nat.
Proof. vm_compute. repeat split. Qed.

(** C4, as the code has it.  For a route that returned a response or
    raised an [Exception]: a failure of the counter increment or of the
    gauge set that [except Exception] catches is swallowed.  The log call
    stands outside the guarded block: when it goes through, the middleware
    hands on the outcome of the route unchanged, and when it raises, that
    exception leaves the middleware in place of the outcome. *)
Theorem metrics_failures_swallowed (faults : Faults) (request : Request)
    (call_next : Request -> M Response) (w w1 : World)
    (pending : Result Response) (code : Z) :
  call_next request (fst (time_time w)) = (w1, pending) ->
  status_code_binding pending = Some code ->
  caught_by_except_Exception (inc_fault faults) = true ->
  caught_by_except_Exception (set_fault faults) = true ->
  snd (add_metrics_and_logging faults request call_next w)
  = match log_fault faults with
    | None => pending
    | Some e => Raise e
    end.
Proof.
  intros Hcall Hcode Hinc Hset.
  unfold add_metrics_and_logging, bind, attempt. simpl in *.
  rewrite Hcall. unfold record_request, bind, try_except_Exception. simpl.
  rewrite Hcode. simpl.
  destruct faults as [[ei|] [es|] [el|]]; simpl in *;
    try rewrite Hinc; try rewrite Hset; reflexivity.
Qed.

Lemma metrics_failures_swallowed_witness :
  snd (add_metrics_and_logging metrics_down (GET "/live")
         (fun _ => live) fresh_world)
  = Return (PlainTextResponse "alive").
Proof.
  apply (metrics_failures_swallowed metrics_down (GET "/live")
           (fun _ => live) fresh_world (fst (time_time fresh_world))
           (Return (PlainTextResponse "alive")) 200);
    reflexivity.
Defined.

(** C4 as stated fails on the log line: with a broken log sink the
    response of [/live] is lost and the sink's exception is raised, while
    the same request without the fault returns the response. *)
Lemma log_failure_breaks_request :
  snd (add_metrics_and_logging log_down (GET "/live") (fun _ => live)
         fresh_world)
  = Raise (Exception "OSError" "Broken pipe")
  /\
  snd (add_metrics_and_logging no_faults (GET "/live") (fun _ => live)
         fresh_world)
  = Return (PlainTextResponse "alive")
  /\
  snd (add_metrics_and_logging log_down (GET "/live") (fun _ => live)
         fresh_world)
  <> snd (add_metrics_and_logging no_faults (GET "/live") (fun _ => live)
            fresh_world).
Proof.
  repeat split. discriminate.
Qed.

(* ------------------------------------------------------------------ *)
(** ** The singleton handle over the life of the process *)
(* ------------------------------------------------------------------ *)

(** A route never raises past the [HTTPException] handler, and it leaves a
    bound handle exactly as it found it: nothing disconnects per request. *)
Lemma route_response_keeps_handle (settings : Settings) (START_TIME : Q)
    (ep : Endpoint) (w : World) :
  exists w1 r,
    route_response settings START_TIME ep w = (w1, Return r) /\
    (forall db, _db w = Some db -> _db w1 = Some db) /\
    (never_disconnected w -> never_disconnected w1 /\ status_code r = 200) /\
    (_db w = None -> uses_db ep = true ->
     exists db, _db w1 = Some db /\ state_of db = Connected).
Proof.
  unfold route_response, http_exception_handler, never_disconnected.
  destruct ep; simpl; unfold Depends_get_db, bind;
    try (eexists _, _; split; [reflexivity|]; repeat split; auto; discriminate).
  all: destruct (_db w) as [[d c]|] eqn:Hdb;
    [ rewrite (get_db_bound _ _ _ Hdb) | rewrite (get_db_unbound _ _ Hdb) ];
    simpl; try destruct c; simpl;
    eexists _, _; (split; [reflexivity|]); simpl;
    repeat split; try congruence; try discriminate; auto;
    try (rewrite Hdb; simpl; congruence);
    try (intros _ _; eexists; split; reflexivity).
Qed.

(** The recording block touches the instruments, the log and the clock,
    never the handle, whatever the libraries do. *)
Lemma record_request_keeps_handle (faults : Faults) (method0 endpoint0 : string)
    (binding : option Z) (start : Q) (w : World) :
  _db (fst (record_request faults method0 endpoint0 binding start w)) = _db w.
Proof.
  unfold record_request, bind, try_except_Exception.
  destruct faults as [[ei|] [es|] [el|]], binding as [code|]; simpl;
    repeat match goal with
           | |- context [is_Exception ?e] => destruct (is_Exception e); simpl
           end;
    reflexivity.
Qed.

Lemma generic_exception_handler_reply (settings : Settings) (request : Request)
    (exc : exn) (w : World) :
  exists w1 r,
    generic_exception_handler settings request exc w = (w1, Return r) /\
    status_code r = 500 /\ _db w1 = _db w.
Proof.
  unfold generic_exception_handler, bind. simpl.
  destruct (DEBUG settings); eexists _, _; repeat split.
Qed.

(** One request through the whole stack: the handle is as the route left
    it, and a response that is not the route's own is the generic 500. *)
Lemma app_keeps_handle (settings : Settings) (START_TIME : Q)
    (faults : Faults) (request : Request) (ep : Endpoint) (w : World) :
  exists w1 r0,
    route_response settings START_TIME ep (fst (time_time w)) = (w1, Return r0) /\
    _db (fst (app settings START_TIME faults request ep w)) = _db w1 /\
    forall r,
      snd (app settings START_TIME faults request ep w) = Return r ->
      r = r0 \/ status_code r = 500.
Proof.
  destruct (route_response_keeps_handle settings START_TIME ep
              (fst (time_time w))) as (w1 & r0 & Hroute & _).
  exists w1, r0. split; [exact Hroute|].
  unfold app, server_errors, try_except_Exception, add_metrics_and_logging,
    bind, attempt.
  simpl in *. rewrite Hroute. simpl.
  pose proof (record_request_keeps_handle faults (method request)
                (url_path request) (Some (status_code r0))
                (clock w (ticks w)) w1) as Hrec.
  destruct (record_request faults (method request) (url_path request)
              (Some (status_code r0)) (clock w (ticks w)) w1)
    as [w2 [[]|e]]; simpl in *.
  - split; [exact Hrec|]. intros r [= <-]. left. reflexivity.
  - destruct (is_Exception e).
    + destruct (generic_exception_handler_reply settings request e w2)
        as (w3 & r1 & Hgen & H500 & Hdb3).
      rewrite Hgen. simpl. split; [congruence|].
      intros r [= <-]. right. exact H500.
    + simpl. split; [exact Hrec|]. discriminate.
Qed.

Lemma ensure_db_connects (settings : Settings) (w : World) :
  exists w1,
    ensure_db settings w = (w1, Return tt) /\
    (forall db, _db w = Some db -> _db w1 = Some db) /\
    (_db w = None ->
     _db w1 = Some {| dsn := DATABASE_DSN settings; connected := true |}).
Proof.
  unfold ensure_db, bind, read_db.
  destruct (_db w) as [db|] eqn:Hdb; simpl.
  - exists w. repeat split; [congruence | discriminate].
  - eexists. split; [reflexivity|]. split; [discriminate | reflexivity].
Qed.

Lemma on_startup_connects (settings : Settings) (w : World) :
  exists w1,
    on_startup settings w = (w1, Return tt) /\
    (forall db, _db w = Some db -> _db w1 = Some db) /\
    (_db w = None ->
     _db w1 = Some {| dsn := DATABASE_DSN settings; connected := true |}).
Proof.
  unfold on_startup, bind. simpl.
  destruct (ensure_db_connects settings
              (fst (logger_info "startup.begin"
                      [("service", VStr (SERVICE_NAME settings));
                       ("environment", VStr (ENVIRONMENT settings))] w)))
    as (w1 & Hens & Hkeep & Hnew).
  simpl in Hens, Hkeep, Hnew. rewrite Hens.
  destruct (OTEL_ENABLED settings), (truthy_opt (SENTRY_DSN settings)); simpl;
    eexists; (split; [reflexivity|]); simpl; split; assumption.
Qed.

(** Every event but [Shutdown] keeps the process in a state where the
    handle, if there is one, is Connected. *)
Lemma step_never_disconnected (settings : Settings) (START_TIME : Q)
    (ev : Event) (w : World) :
  ev <> Shutdown ->
  never_disconnected w ->
  never_disconnected (step settings START_TIME ev w).
Proof.
  intros Hev Hinv. destruct ev as [| |faults request ep]; simpl.
  - destruct (on_startup_connects settings w) as (w1 & Hrun & Hkeep & Hnew).
    rewrite Hrun. simpl. unfold never_disconnected in *.
    destruct (_db w) as [db|] eqn:Hdb.
    + rewrite (Hkeep db eq_refl). exact Hinv.
    + rewrite (Hnew eq_refl). reflexivity.
  - congruence.
  - destruct (app_keeps_handle settings START_TIME faults request ep w)
      as (w1 & r0 & Hroute & Hdb & _).
    destruct (route_response_keeps_handle settings START_TIME ep
                (fst (time_time w))) as (w1' & r0' & Hroute' & _ & Hok & _).
    rewrite Hroute in Hroute'. injection Hroute' as <- <-.
    unfold never_disconnected in *. rewrite Hdb. apply Hok. exact Hinv.
Qed.

Lemma run_never_disconnected (settings : Settings) (START_TIME : Q)
    (trace : list Event) (w : World) :
  ~ In Shutdown trace ->
  never_disconnected w ->
  never_disconnected (run settings START_TIME trace w).
Proof.
  revert w. induction trace as [|ev trace IH]; intros w Hno Hinv; simpl.
  - exact Hinv.
  - apply IH.
    + intros Hin. apply Hno. right. exact Hin.
    + apply step_never_disconnected; [|exact Hinv].
      intros ->. apply Hno. left. reflexivity.
Qed.

Lemma Shutdown_in_trace_dec (trace : list Event) :
  In Shutdown trace \/ ~ In Shutdown trace.
Proof.
  induction trace as [|ev trace [IH|IH]].
  - right. intros [].
  - left. right. exact IH.
  - destruct ev as [| |faults request ep].
    + right. intros [Heq|Hin]; [discriminate | contradiction].
    + left. left. reflexivity.
    + right. intros [Heq|Hin]; [discriminate | contradiction].
Qed.

(** C10.  [get_db] creates and at once connects the singleton when [_db]
    is unbound, and hands out a bound handle untouched.  Hence a
    database-dependent route called before any handle exists sees a
    Connected handle and answers 200; and over any history of startups,
    shutdowns and requests that begins with no handle, a 503 from the
    application is only possible once the shutdown hook, the one caller of
    [disconnect()], has run. *)
Theorem lazy_handle_503_only_after_disconnect (settings : Settings)
    (START_TIME : Q) :
  (forall w, _db w = None ->
     exists w1 db, get_db settings w = (w1, Return db) /\
                   _db w1 = Some db /\ state_of db = Connected) /\
  (forall w db, _db w = Some db -> get_db settings w = (w, Return db)) /\
  (forall ep w, uses_db ep = true -> _db w = None ->
     exists w1 r db,
       route_response settings START_TIME ep w = (w1, Return r) /\
       status_code r = 200 /\ _db w1 = Some db /\ state_of db = Connected) /\
  (forall trace w0 faults request ep r,
     _db w0 = None ->
     snd (app settings START_TIME faults request ep
            (run settings START_TIME trace w0)) = Return r ->
     status_code r = 503 ->
     In Shutdown trace).
Proof.
  repeat split.
  - intros w Hdb. eexists _, _. rewrite (get_db_unbound _ _ Hdb).
    repeat split.
  - intros w db Hdb. apply get_db_bound. exact Hdb.
  - intros ep w Huses Hdb.
    destruct (route_response_keeps_handle settings START_TIME ep w)
      as (w1 & r & Hroute & _ & Hok & Hnew).
    destruct (Hnew Hdb Huses) as (db & Hdb1 & Hstate).
    exists w1, r, db. repeat split; try assumption.
    apply Hok. unfold never_disconnected. rewrite Hdb. exact I.
  - intros trace w0 faults request ep r Hdb Hreply H503.
    destruct (Shutdown_in_trace_dec trace) as [Hin|Hno]; [exact Hin|].
    exfalso.
    assert (Hinv : never_disconnected (run settings START_TIME trace w0)).
    { apply run_never_disconnected; [exact Hno|].
      unfold never_disconnected. rewrite Hdb. exact I. }
    destruct (app_keeps_handle settings START_TIME faults request ep
                (run settings START_TIME trace w0))
      as (w1 & r0 & Hroute & _ & Hsame).
    destruct (route_response_keeps_handle settings START_TIME ep
                (fst (time_time (run settings START_TIME trace w0))))
      as (w1' & r0' & Hroute' & _ & Hok & _).
    rewrite Hroute in Hroute'. injection Hroute' as <- <-.
    destruct (Hok Hinv) as [_ H200].
    destruct (Hsame r Hreply) as [-> | H500]; congruence.
Qed.

(** A 503 is indeed reached once the hook has run: the last part on the
    history startup, shutdown, [GET /health]. *)
Lemma lazy_handle_503_only_after_disconnect_witness :
  snd (app production_settings 0 no_faults (GET "/health") Health
         (run production_settings 0 [Startup; Shutdown] fresh_world))
  = Return (JSONResponse 503
              (JObj [("status", JStr "fail");
                     ("checks", JObj [("database", JStr "unhealthy")]);
                     ("uptime_seconds", JInt 1)]))
  /\ In Shutdown [Startup; Shutdown].
Proof.
  split; [reflexivity|].
  destruct (lazy_handle_503_only_after_disconnect production_settings 0)
    as (_ & _ & _ & Honly).
  apply (Honly [Startup; Shutdown] fresh_world no_faults (GET "/health") Health
           (JSONResponse 503
              (JObj [("status", JStr "fail");
                     ("checks", JObj [("database", JStr "unhealthy")]);
                     ("uptime_seconds", JInt 1)])));
    reflexivity.
Defined.

(** Requests alone never bring the handle down: a burst of requests on a
    fresh process, then one more. *)
Example requests_before_startup :
  let w := run production_settings 0
             [Serve no_faults (GET "/ready") Ready;
              Serve metrics_down (GET "/api/v1/items/3") (GetItem 3);
              Serve log_down (GET "/health") Health] fresh_world in
  (state_of <$> _db w) = Some Connected /\
  snd (app production_settings 0 no_faults (GET "/ready") Ready w)
  = Return (PlainTextResponse "ready").
Proof. vm_compute. split; reflexivity. Qed.

(* ------------------------------------------------------------------ *)
(** ** Comma-separated settings in [create_app] *)
(* ------------------------------------------------------------------ *)



























Example comma_list_blank : Py.comma_list " ,,  , " = [].
Proof. reflexivity. Qed.


Example cors_blank_in_debug :
  let s := {| SERVICE_NAME := "svc"; ENVIRONMENT := "dev"; DEBUG := true;
              CORS_ORIGINS := " "; METRICS_ENABLED := true;
              DATABASE_DSN := None; REDIS_DSN := None; OTEL_ENABLED := false;
              SENTRY_DSN := None; HOST := "0.0.0.0"; PORT := 8000 |} in
  cors_allow_origins (create_app_middleware s ∅) = None /\
  cors_allow_origins (create_app_middleware debug_settings ∅) = Some ["*"].
Proof. split; reflexivity. Qed.


Example trusted_hosts_set_but_empty :
  let environ : gmap string string := {[ "TRUSTED_HOSTS" := "" ]} in
  trusted_allowed_hosts (create_app_middleware production_settings environ)
  = Some [].
Proof. reflexivity. Qed.

(* ------------------------------------------------------------------ *)
(** ** More on the settings loader *)
(* ------------------------------------------------------------------ *)

(** [Settings()] looks at the eleven names and at nothing else. *)
Lemma Settings_init_ext (coerce_bool : string -> option bool)
    (coerce_int : string -> option Z)
    (environ1 dotenv1 environ2 dotenv2 : gmap string string) :
  Forall (fun name => raw environ1 dotenv1 name = raw environ2 dotenv2 name)
         settings_env_names ->
  Settings_init coerce_bool coerce_int environ1 dotenv1
  = Settings_init coerce_bool coerce_int environ2 dotenv2.
Proof.
  intros Hsame. unfold settings_env_names in Hsame.
  repeat match goal with
         | H : Forall _ (_ :: _) |- _ =>
             let Hhd := fresh "Hhd" in
             let Htl := fresh "Htl" in
             apply Forall_cons in H as [Hhd Htl]
         end.
  unfold Settings_init, bool_field, int_field, str_field, opt_str_field.
  repeat match goal with
         | H : raw environ1 dotenv1 _ = _ |- _ => rewrite H; clear H
         end.
  reflexivity.
Qed.

(** X5. [Settings()] fails exactly when one of the four typed fields
    ([DEBUG], [METRICS_ENABLED], [OTEL_ENABLED], [PORT]) is set, in the
    environment or in [.env], to a value its coercion rejects; the string
    fields accept anything. *)
Theorem Settings_init_fails_iff (coerce_bool : string -> option bool)
    (coerce_int : string -> option Z) (environ dotenv : gmap string string) :
  Settings_init coerce_bool coerce_int environ dotenv = None <->
  (exists name v,
      In name ["DEBUG"; "METRICS_ENABLED"; "OTEL_ENABLED"] /\
      raw environ dotenv name = Some v /\ coerce_bool v = None) \/
  (exists v, raw environ dotenv "PORT" = Some v /\ coerce_int v = None).
Proof.
  unfold Settings_init.
  destruct (bool_field coerce_bool environ dotenv false "DEBUG") eqn:Hd,
    (bool_field coerce_bool environ dotenv true "METRICS_ENABLED") eqn:Hm,
    (bool_field coerce_bool environ dotenv false "OTEL_ENABLED") eqn:Ho,
    (int_field coerce_int environ dotenv 8000 "PORT") eqn:Hp;
    unfold bool_field, int_field in *;
    (split; intros H; try reflexivity; try discriminate H);
    lazymatch type of H with
    | _ \/ _ =>
        destruct H as [(name & v & Hin & Hraw & Hrej) | (v & Hraw & Hrej)];
        [ simpl in Hin; destruct Hin as [<- | [<- | [<- | []]]] | ];
        rewrite Hraw in *; congruence
    | _ =>
        first
          [ destruct (raw environ dotenv "DEBUG") as [v|] eqn:Hr;
            [|discriminate]; left; exists "DEBUG", v; simpl; solve [auto 10]
          | destruct (raw environ dotenv "METRICS_ENABLED") as [v|] eqn:Hr;
            [|discriminate]; left; exists "METRICS_ENABLED", v; simpl;
            solve [auto 10]
          | destruct (raw environ dotenv "OTEL_ENABLED") as [v|] eqn:Hr;
            [|discriminate]; left; exists "OTEL_ENABLED", v; simpl;
            solve [auto 10]
          | destruct (raw environ dotenv "PORT") as [v|] eqn:Hr;
            [|discriminate]; right; exists v; solve [auto 10] ]
    end.
Qed.

Example settings_bad_port :
  let coerce_int s := if String.eqb s "8080" then Some 8080 else None in
  Settings_init (fun _ => Some true) coerce_int {[ "PORT" := "eighty" ]} ∅ = None /\
  (PORT <$> Settings_init (fun _ => Some true) coerce_int ∅ {[ "PORT" := "8080" ]})
    = Some 8080.
Proof. vm_compute. split; reflexivity. Qed.

(** X6. The process environment wins over [.env]: for a name the
    environment sets, whatever [.env] says about that name makes no
    difference to the settings. *)
Theorem environ_shadows_dotenv (coerce_bool : string -> option bool)
    (coerce_int : string -> option Z) (environ dotenv : gmap string string)
    (name v' : string) :
  is_Some (environ !! name) ->
  Settings_init coerce_bool coerce_int environ (<[name := v']> dotenv)
  = Settings_init coerce_bool coerce_int environ dotenv
  /\ Settings_init coerce_bool coerce_int environ (delete name dotenv)
     = Settings_init coerce_bool coerce_int environ dotenv.
Proof.
  intros [v Hv].
  split; apply Settings_init_ext, Forall_forall; intros n _; unfold raw;
    destruct (decide (n = name)) as [->|Hne].
  - rewrite !(lookup_union_Some_l _ _ _ _ Hv). reflexivity.
  - rewrite !lookup_union, lookup_insert_ne by congruence. reflexivity.
  - rewrite !(lookup_union_Some_l _ _ _ _ Hv). reflexivity.
  - rewrite !lookup_union, lookup_delete_ne by congruence. reflexivity.
Qed.

Lemma environ_shadows_dotenv_witness :
  let coerce_int s := if String.eqb s "9000" then Some 9000 else None in
  let environ : gmap string string := {[ "PORT" := "9000" ]} in
  Settings_init (fun _ => None) coerce_int environ {[ "PORT" := "junk" ]}
  = Settings_init (fun _ => None) coerce_int environ ∅.
Proof.
  intros coerce_int environ.
  apply (environ_shadows_dotenv (fun _ => None) coerce_int environ ∅
           "PORT" "junk").
  exists "9000". reflexivity.
Defined.

(** X7. Names other than the eleven the settings declare are ignored,
    wherever they are set: adding one to the environment or to [.env]
    leaves the settings as they were. *)
Theorem unrelated_names_ignored (coerce_bool : string -> option bool)
    (coerce_int : string -> option Z) (environ dotenv : gmap string string)
    (name v : string) :
  ~ In name settings_env_names ->
  Settings_init coerce_bool coerce_int (<[name := v]> environ) dotenv
  = Settings_init coerce_bool coerce_int environ dotenv
  /\ Settings_init coerce_bool coerce_int environ (<[name := v]> dotenv)
     = Settings_init coerce_bool coerce_int environ dotenv.
Proof.
  intros Hnot.
  split; apply Settings_init_ext, Forall_forall; intros n Hn; unfold raw;
    assert (name <> n) by (intros ->; apply Hnot, list_elem_of_In, Hn);
    rewrite !lookup_union, lookup_insert_ne by assumption; reflexivity.
Qed.

Lemma unrelated_names_ignored_witness :
  Settings_init (fun _ => None) (fun _ => None)
    {[ "TRUSTED_HOSTS" := "a.example" ]} ∅
  = Settings_init (fun _ => None) (fun _ => None) ∅ ∅.
Proof.
  apply (unrelated_names_ignored (fun _ => None) (fun _ => None) ∅ ∅
           "TRUSTED_HOSTS" "a.example").
  vm_compute. intuition discriminate.
Defined.

(* ------------------------------------------------------------------ *)
(** ** Effects of each operation on the process state *)
(* ------------------------------------------------------------------ *)

Lemma connect_calls_app (l1 l2 : list LogRecord) :
  connect_calls (l1 ++ l2) = (connect_calls l1 + connect_calls l2)%nat.
Proof.
  unfold connect_calls. rewrite List.filter_app, length_app. reflexivity.
Qed.

(** A route leaves the instruments alone, only ever appends to the log,
    and the one line it may append is the "database.connecting" of a
    handle it has just created. *)
Lemma route_response_effects (settings : Settings) (START_TIME : Q)
    (ep : Endpoint) (w : World) :
  exists w1 r added,
    route_response settings START_TIME ep w = (w1, Return r) /\
    REQUEST_COUNT w1 = REQUEST_COUNT w /\
    REQUEST_LATENCY w1 = REQUEST_LATENCY w /\
    log w1 = (log w ++ added)%list /\
    (connect_calls added + handles w = handles w1)%nat /\
    (uses_db ep = false -> _db w1 = _db w).
Proof.
  unfold route_response, http_exception_handler, handles.
  destruct ep; simpl; unfold Depends_get_db, bind;
    try (eexists _, _, []; split; [reflexivity|]; simpl;
         rewrite app_nil_r; repeat split; reflexivity).
  all: destruct (_db w) as [[d c]|] eqn:Hdb;
    [ rewrite (get_db_bound _ _ _ Hdb); simpl; destruct c; simpl;
      eexists _, _, []; (split; [reflexivity|]); simpl;
      rewrite Hdb, app_nil_r; repeat split; discriminate
    | rewrite (get_db_unbound _ _ Hdb); simpl;
      eexists _, _, [_]; (split; [reflexivity|]); simpl;
      repeat split; discriminate ].
Qed.

(** The recording block under any behaviour of the libraries: the handle
    is not touched, the log only grows and never by a connect line, and the
    counter either stays or gains one on the label triple of the request;
    it gains one whenever the increment itself goes through. *)
Lemma record_request_effects (faults : Faults) (request : Request)
    (code : Z) (start : Q) (w : World) :
  exists w' out added,
    record_request faults (method request) (url_path request) (Some code)
      start w = (w', out) /\
    _db w' = _db w /\
    log w' = (log w ++ added)%list /\
    connect_calls added = 0%nat /\
    (REQUEST_COUNT w' = REQUEST_COUNT w \/
     REQUEST_COUNT w'
     = <[labels_of request code := S (count_of (labels_of request code) w)]>
         (REQUEST_COUNT w)) /\
    (inc_fault faults = None ->
     REQUEST_COUNT w'
     = <[labels_of request code := S (count_of (labels_of request code) w)]>
         (REQUEST_COUNT w)).
Proof.
  unfold record_request, bind, try_except_Exception, labels_of.
  destruct faults as [[ei|] [es|] [el|]]; simpl;
    repeat match goal with
           | |- context [is_Exception ?e] => destruct (is_Exception e); simpl
           end;
    first
      [ solve [ eexists _, _, []; (split; [reflexivity|]); simpl;
                rewrite app_nil_r; repeat split;
                try (intros; discriminate); auto ]
      | solve [ eexists _, _, [_]; (split; [reflexivity|]); simpl;
                repeat split; try (intros; discriminate); auto ] ].
Qed.

Lemma generic_exception_handler_effects (settings : Settings)
    (request : Request) (exc : exn) (w : World) :
  exists w1 r added,
    generic_exception_handler settings request exc w = (w1, Return r) /\
    status_code r = 500 /\ _db w1 = _db w /\
    REQUEST_COUNT w1 = REQUEST_COUNT w /\
    log w1 = (log w ++ added)%list /\ connect_calls added = 0%nat.
Proof.
  unfold generic_exception_handler, bind. simpl.
  destruct (DEBUG settings); eexists _, _, [_]; repeat split.
Qed.

(** One request through the whole stack. *)
Lemma app_effects (settings : Settings) (START_TIME : Q) (faults : Faults)
    (request : Request) (ep : Endpoint) (w : World) :
  exists w1 r0 w2 out added,
    route_response settings START_TIME ep (fst (time_time w)) = (w1, Return r0) /\
    app settings START_TIME faults request ep w = (w2, out) /\
    _db w2 = _db w1 /\
    log w2 = (log w1 ++ added)%list /\ connect_calls added = 0%nat /\
    (REQUEST_COUNT w2 = REQUEST_COUNT w1 \/
     REQUEST_COUNT w2
     = <[labels_of request (status_code r0)
         := S (count_of (labels_of request (status_code r0)) w1)]>
         (REQUEST_COUNT w1)) /\
    (inc_fault faults = None ->
     REQUEST_COUNT w2
     = <[labels_of request (status_code r0)
         := S (count_of (labels_of request (status_code r0)) w1)]>
         (REQUEST_COUNT w1)).
Proof.
  destruct (route_response_effects settings START_TIME ep (fst (time_time w)))
    as (w1 & r0 & _ & Hroute & _).
  destruct (record_request_effects faults request (status_code r0)
              (clock w (ticks w)) w1)
    as (w' & out & added & Hrec & Hdb & Hlog & Hcalls & Hcount & Hinc).
  exists w1, r0.
  unfold app, server_errors, try_except_Exception, add_metrics_and_logging,
    bind, attempt.
  simpl in *. rewrite Hroute. simpl. rewrite Hrec.
  destruct out as [[]|e]; simpl.
  - exists w', (Return r0), added. repeat split; assumption.
  - destruct (is_Exception e).
    + destruct (generic_exception_handler_effects settings request e w')
        as (w3 & r1 & added' & Hgen & _ & Hdb3 & Hcount3 & Hlog3 & Hcalls3).
      rewrite Hgen. exists w3, (Return r1), (added ++ added')%list.
      split; [reflexivity|]. repeat split.
      * congruence.
      * rewrite Hlog3, Hlog, app_assoc. reflexivity.
      * rewrite connect_calls_app, Hcalls, Hcalls3. reflexivity.
      * rewrite Hcount3. exact Hcount.
      * intros Hnone. rewrite Hcount3. exact (Hinc Hnone).
    + exists w', (Raise e), added. repeat split; assumption.
Qed.

Lemma on_startup_effects (settings : Settings) (w : World) :
  exists w1 added,
    on_startup settings w = (w1, Return tt) /\
    REQUEST_COUNT w1 = REQUEST_COUNT w /\
    log w1 = (log w ++ added)%list /\
    (connect_calls added + handles w = handles w1)%nat /\
    _db w1 = handle_next settings (_db w) Startup.
Proof.
  unfold on_startup, ensure_db, on_db, bind, read_db, handles. simpl.
  destruct (_db w) as [db|] eqn:Hdb; simpl;
    destruct (OTEL_ENABLED settings), (truthy_opt (SENTRY_DSN settings)); simpl;
    eexists _, _; (split; [reflexivity|]); simpl;
    rewrite <- ?app_assoc; simpl; rewrite ?Hdb;
    repeat split; reflexivity.
Qed.

Lemma on_shutdown_effects (w : World) :
  exists w1 added,
    on_shutdown w = (w1, Return tt) /\
    REQUEST_COUNT w1 = REQUEST_COUNT w /\
    log w1 = (log w ++ added)%list /\
    connect_calls added = 0%nat /\
    _db w1 = closed <$> _db w.
Proof.
  unfold on_shutdown, on_db, bind, read_db. simpl.
  destruct (_db w) as [db|] eqn:Hdb; simpl; rewrite ?Hdb; simpl;
    eexists _, _; (split; [reflexivity|]); simpl;
    rewrite <- ?app_assoc; simpl; rewrite ?Hdb;
    repeat split; reflexivity.
Qed.

Lemma route_response_handle (settings : Settings) (START_TIME : Q)
    (faults : Faults) (request : Request) (ep : Endpoint) (w : World) :
  _db (fst (route_response settings START_TIME ep w))
  = handle_next settings (_db w) (Serve faults request ep).
Proof.
  unfold route_response, http_exception_handler.
  destruct ep; simpl; unfold Depends_get_db, bind;
    try (destruct (_db w); reflexivity).
  all: destruct (_db w) as [[d c]|] eqn:Hdb;
    [ rewrite (get_db_bound _ _ _ Hdb); simpl; destruct c; simpl; exact Hdb
    | rewrite (get_db_unbound _ _ Hdb); reflexivity ].
Qed.

(** What one event does to the handle, the log and the counter. *)
Lemma step_effects (settings : Settings) (START_TIME : Q) (ev : Event)
    (w : World) :
  let w' := step settings START_TIME ev w in
  _db w' = handle_next settings (_db w) ev /\
  (exists added,
      log w' = (log w ++ added)%list /\
      (connect_calls added + handles w = handles w')%nat) /\
  (forall l, (count_of l w <= count_of l w')%nat /\
             (count_of l w' <= count_of l w + (if is_request ev then 1 else 0))%nat).
Proof.
  destruct ev as [| |faults request ep]; simpl.
  - destruct (on_startup_effects settings w)
      as (w1 & added & Hrun & Hcount & Hlog & Hcalls & Hdb).
    rewrite Hrun. simpl. split; [exact Hdb|]. split.
    + exists added. split; assumption.
    + intros l. unfold count_of. rewrite Hcount. lia.
  - destruct (on_shutdown_effects w)
      as (w1 & added & Hrun & Hcount & Hlog & Hcalls & Hdb).
    rewrite Hrun. simpl. split; [exact Hdb|]. split.
    + exists added. split; [exact Hlog|].
      rewrite Hcalls. unfold handles. rewrite Hdb.
      destruct (_db w); reflexivity.
    + intros l. unfold count_of. rewrite Hcount. lia.
  - destruct (app_effects settings START_TIME faults request ep w)
      as (w1 & r0 & w2 & out & added & Hroute & Happ & Hdb & Hlog & Hcalls
          & Hcount & _).
    destruct (route_response_effects settings START_TIME ep (fst (time_time w)))
      as (w1' & r0' & added0 & Hroute' & Hcount0 & _ & Hlog0 & Hcalls0 & _).
    rewrite Hroute in Hroute'. injection Hroute' as <- <-.
    pose proof (route_response_handle settings START_TIME faults request ep
                  (fst (time_time w))) as Hhandle.
    rewrite Hroute in Hhandle. simpl in Hhandle, Hcount0, Hlog0, Hcalls0.
    rewrite Happ. simpl. split; [congruence|]. split.
    + exists (added0 ++ added)%list. split.
      * rewrite Hlog, Hlog0, app_assoc. reflexivity.
      * rewrite connect_calls_app, Hcalls.
        unfold handles in *. rewrite Hdb. simpl in Hcalls0. lia.
    + intros l. unfold count_of.
      destruct Hcount as [-> | ->]; rewrite ?Hcount0; [lia|].
      destruct (decide (labels_of request (status_code r0) = l)) as [<-|Hne].
      * rewrite lookup_insert_eq. unfold count_of. rewrite Hcount0. simpl. lia.
      * rewrite lookup_insert_ne by exact Hne. lia.
Qed.

(* ------------------------------------------------------------------ *)
(** ** Histories of the process *)
(* ------------------------------------------------------------------ *)


(** X9. A closed handle stays closed: once [_db] is bound to a
    Disconnected handle, no later startup or request reconnects it, so
    after any further history every database-dependent route still answers
    503. *)
Theorem closed_handle_stays_closed (settings : Settings) (START_TIME : Q)
    (trace : list Event) (w : World) (db : Database) (ep : Endpoint) :
  _db w = Some db ->
  connected db = false ->
  uses_db ep = true ->
  exists w' r,
    _db (run settings START_TIME trace w) = Some db /\
    route_response settings START_TIME ep (run settings START_TIME trace w)
      = (w', Return r) /\
    status_code r = 503.
Proof.
  intros Hdb Hc Hep.
  assert (Hafter : _db (run settings START_TIME trace w) = Some db).
  { revert w Hdb. unfold run.
    induction trace as [|ev trace IH]; intros w Hdb; simpl; [exact Hdb|].
    apply IH.
    destruct (step_effects settings START_TIME ev w) as [Hstep _].
    rewrite Hstep, Hdb.
    destruct ev; simpl; try reflexivity.
    destruct db as [d c]. simpl in Hc. subst c. reflexivity. }
  destruct db as [d c]. simpl in Hc. subst c.
  unfold route_response, http_exception_handler.
  destruct ep; try discriminate Hep; simpl; unfold Depends_get_db, bind;
    rewrite (get_db_bound _ _ _ Hafter); simpl;
    eexists _, _; repeat split; exact Hafter.
Qed.

Lemma closed_handle_stays_closed_witness :
  exists r,
    snd (route_response production_settings 0 Ready
           (run production_settings 0
              [Startup; Serve no_faults (GET "/health") Health] stopped_world))
    = Return r /\ status_code r = 503.
Proof.
  destruct (closed_handle_stays_closed production_settings 0
              [Startup; Serve no_faults (GET "/health") Health] stopped_world
              {| dsn := None; connected := false |} Ready)
    as (w' & r & _ & Hrun & H503); try reflexivity.
  exists r. rewrite Hrun. split; [reflexivity | exact H503].
Defined.

Lemma run_log (settings : Settings) (START_TIME : Q) (trace : list Event)
    (w : World) :
  exists added,
    log (run settings START_TIME trace w) = (log w ++ added)%list /\
    (connect_calls added + handles w
     = handles (run settings START_TIME trace w))%nat.
Proof.
  revert w. unfold run.
  induction trace as [|ev trace IH]; intros w; simpl.
  - exists []. rewrite app_nil_r. split; reflexivity.
  - destruct (step_effects settings START_TIME ev w)
      as (_ & (added & Hlog & Hcalls) & _).
    destruct (IH (step settings START_TIME ev w))
      as (added' & Hlog' & Hcalls').
    exists (added ++ added')%list. split.
    + rewrite Hlog', Hlog, app_assoc. reflexivity.
    + rewrite connect_calls_app. lia.
Qed.

(** X10. [Database.connect] is entered at most once in the life of a
    process: over any history that starts from the freshly imported
    module, the log holds one "database.connecting" line if the handle
    exists and none otherwise. *)
Theorem connect_at_most_once (settings : Settings) (START_TIME : Q)
    (trace : list Event) (clock0 : nat -> Q) :
  let w := run settings START_TIME trace (initial_world clock0) in
  connect_calls (log w) = handles w /\ (connect_calls (log w) <= 1)%nat.
Proof.
  simpl.
  destruct (run_log settings START_TIME trace (initial_world clock0))
    as (added & Hlog & Hcalls).
  simpl in Hlog, Hcalls. rewrite Hlog.
  unfold handles in *. simpl in Hcalls.
  destruct (_db (run settings START_TIME trace (initial_world clock0))); lia.
Qed.

(** X11. The request counter is monotone and counts at most the requests
    served: over any history no sample ever decreases, and no sample grows
    by more than the number of requests in the history. *)
Theorem counter_monotone (settings : Settings) (START_TIME : Q)
    (trace : list Event) (w : World) (l : Labels) :
  (count_of l w <= count_of l (run settings START_TIME trace w))%nat /\
  (count_of l (run settings START_TIME trace w)
   <= count_of l w + requests trace)%nat.
Proof.
  revert w. unfold run, requests.
  induction trace as [|ev trace IH]; intros w; simpl; [lia|].
  destruct (step_effects settings START_TIME ev w) as (_ & _ & Hcount).
  destruct (Hcount l) as [Hlo Hhi].
  destruct (IH (step settings START_TIME ev w)) as [IHlo IHhi].
  destruct (is_request ev); simpl in *; lia.
Qed.

(* ------------------------------------------------------------------ *)
(** ** More on the instrumentation middleware *)
(* ------------------------------------------------------------------ *)

(** X12. Whenever the counter increment goes through, a request served by
    the application is counted exactly once, under its method, its path and
    the status the route produced, and no other sample moves.  This holds
    whatever the gauge and the log call do, so also when the client ends up
    with the generic 500 instead of the route's response. *)
Theorem request_counted_once (settings : Settings) (START_TIME : Q)
    (faults : Faults) (request : Request) (ep : Endpoint) (w : World) :
  inc_fault faults = None ->
  exists w1 r0,
    route_response settings START_TIME ep (fst (time_time w)) = (w1, Return r0) /\
    let w' := step settings START_TIME (Serve faults request ep) w in
    let counted := labels_of request (status_code r0) in
    count_of counted w' = S (count_of counted w) /\
    forall l, l <> counted -> count_of l w' = count_of l w.
Proof.
  intros Hinc.
  destruct (app_effects settings START_TIME faults request ep w)
    as (w1 & r0 & w2 & out & added & Hroute & Happ & _ & _ & _ & _ & Hcount).
  destruct (route_response_effects settings START_TIME ep (fst (time_time w)))
    as (w1' & r0' & added0 & Hroute' & Hcount0 & _).
  rewrite Hroute in Hroute'. injection Hroute' as <- <-.
  exists w1, r0. split; [exact Hroute|].
  simpl in *. rewrite Happ. simpl. specialize (Hcount Hinc).
  unfold count_of in *. rewrite Hcount, Hcount0. split.
  - rewrite lookup_insert_eq. reflexivity.
  - intros l Hne. rewrite lookup_insert_ne by congruence. reflexivity.
Qed.

Lemma request_counted_once_witness :
  let w' := step production_settings 0
              (Serve log_down (GET "/ready") Ready) fresh_world in
  count_of ("GET", "/ready", "200") w' = 1%nat /\
  count_of ("GET", "/ready", "500") w' = 0%nat.
Proof.
  destruct (request_counted_once production_settings 0 log_down
              (GET "/ready") Ready fresh_world eq_refl)
    as (w1 & r0 & Hroute & Hsame & Hother).
  cbv in Hroute. injection Hroute as <- <-.
  split.
  - exact Hsame.
  - apply (Hother ("GET", "/ready", "500")). discriminate.
Defined.

(** X13. A failure of the log call turns any answer into the generic 500:
    when [logger.info] raises an [Exception] on the way out, the response
    the route had produced is dropped and the client receives what the
    global exception handler makes of the logging exception. *)
Theorem log_failure_answers_500 (settings : Settings) (START_TIME : Q)
    (faults : Faults) (request : Request) (ep : Endpoint) (w : World)
    (e : exn) :
  log_fault faults = Some e ->
  is_Exception e = true ->
  caught_by_except_Exception (inc_fault faults) = true ->
  caught_by_except_Exception (set_fault faults) = true ->
  snd (app settings START_TIME faults request ep w)
  = Return (JSONResponse 500
              (JObj [("detail",
                      JStr (if DEBUG settings then exc_str e
                            else "Internal Server Error"))])).
Proof.
  intros Hlog He Hinc Hset.
  destruct (route_response_keeps_handle settings START_TIME ep
              (fst (time_time w))) as (w1 & r0 & Hroute & _).
  unfold app, server_errors, try_except_Exception, add_metrics_and_logging,
    bind, attempt.
  simpl in *. rewrite Hroute. simpl.
  unfold record_request, bind, try_except_Exception. simpl.
  destruct faults as [[ei|] [es|] [el|]]; simpl in *;
    try discriminate Hlog; injection Hlog as ->;
    try rewrite Hinc; try rewrite Hset; simpl; rewrite He;
    unfold generic_exception_handler, bind; simpl;
    destruct (DEBUG settings); reflexivity.
Qed.

Lemma log_failure_answers_500_witness :
  snd (app production_settings 0 log_down (GET "/live") Live fresh_world)
  = Return (JSONResponse 500 (JObj [("detail", JStr "Internal Server Error")])).
Proof.
  apply (log_failure_answers_500 production_settings 0 log_down (GET "/live")
           Live fresh_world (Exception "OSError" "Broken pipe"));
    reflexivity.
Defined.

(** X14. The middleware never alters a response: for any inner
    application and any behaviour of the libraries, a response that leaves
    the middleware is the very response the inner application returned. *)
Theorem middleware_passes_response (faults : Faults) (request : Request)
    (call_next : Request -> M Response) (w : World) (r : Response) :
  snd (add_metrics_and_logging faults request call_next w) = Return r ->
  snd (call_next request (fst (time_time w))) = Return r.
Proof.
  unfold add_metrics_and_logging, bind, attempt. simpl.
  destruct (call_next request (set_ticks (S (ticks w)) w)) as [w1 pending].
  simpl.
  destruct (record_request faults (method request) (url_path request)
              (status_code_binding pending) (clock w (ticks w)) w1)
    as [w2 [[]|e]]; simpl.
  - intros H. exact H.
  - discriminate.
Qed.

Lemma middleware_passes_response_witness :
  snd (live (fst (time_time fresh_world))) = Return (PlainTextResponse "alive").
Proof.
  apply (middleware_passes_response metrics_down (GET "/live")
           (fun _ => live) fresh_world (PlainTextResponse "alive")).
  reflexivity.
Defined.

(** X15. The latency gauge keeps the last value only, and it shares the
    fate of the counter: after a request whose route returned or raised an
    [Exception], the gauge of the path holds exactly the time between the
    two clock readings of the middleware, whatever it held before, provided
    both metrics calls went through; if either of them raised, the gauge is
    as it was.  Gauges of other paths never move. *)
Theorem gauge_last_write_wins (faults : Faults) (request : Request)
    (call_next : Request -> M Response) (w w1 : World)
    (pending : Result Response) (code : Z) :
  call_next request (fst (time_time w)) = (w1, pending) ->
  status_code_binding pending = Some code ->
  let w' := fst (add_metrics_and_logging faults request call_next w) in
  let latency := (clock w1 (ticks w1) - clock w (ticks w))%Q in
  REQUEST_LATENCY w'
  = match inc_fault faults, set_fault faults with
    | None, None => <[url_path request := latency]> (REQUEST_LATENCY w1)
    | _, _ => REQUEST_LATENCY w1
    end
  /\ forall path, path <> url_path request ->
       REQUEST_LATENCY w' !! path = REQUEST_LATENCY w1 !! path.
Proof.
  intros Hcall Hcode.
  unfold add_metrics_and_logging, bind, attempt. simpl in *.
  rewrite Hcall. unfold record_request, bind, try_except_Exception. simpl.
  rewrite Hcode. simpl.
  destruct faults as [[ei|] [es|] [el|]]; simpl;
    repeat match goal with
           | |- context [is_Exception ?e] => destruct (is_Exception e); simpl
           end;
    (split; [reflexivity|]); intros path Hne;
    rewrite ?lookup_insert_ne by congruence; reflexivity.
Qed.

Lemma gauge_last_write_wins_witness :
  REQUEST_LATENCY
    (fst (add_metrics_and_logging no_faults (GET "/live") (fun _ => live)
            fresh_world)) !! "/live"
  = Some (1 - 0)%Q.
Proof.
  destruct (gauge_last_write_wins no_faults (GET "/live") (fun _ => live)
              fresh_world (fst (time_time fresh_world))
              (Return (PlainTextResponse "alive")) 200 eq_refl eq_refl)
    as [Hset _].
  rewrite Hset. reflexivity.
Defined.

(** X16. An exception of a route that nothing handled, through the whole
    stack with working libraries: the client receives the 500 of the global
    handler, the request is counted once under status "500", and the log
    gains two lines in this order: the "http.request" line with status 500,
    then the "unhandled_exception" line, which carries the path and the
    text of the exception also when debug is off. *)
Theorem unhandled_exception_flow (settings : Settings) (request : Request)
    (call_next : Request -> M Response) (cls text : string) (w w1 : World) :
  call_next request (fst (time_time w)) = (w1, Raise (Exception cls text)) ->
  exists w2 latency,
    server_errors settings request
      (add_metrics_and_logging no_faults request call_next) w
    = (w2, Return (JSONResponse 500
                     (JObj [("detail",
                             JStr (if DEBUG settings then text
                                   else "Internal Server Error"))]))) /\
    count_of (labels_of request 500) w2
    = S (count_of (labels_of request 500) w1) /\
    log w2 = (log w1 ++
              [mkLogRecord INFO "http.request"
                 [("method", VStr (method request));
                  ("path", VStr (url_path request));
                  ("status_code", VInt 500);
                  ("latency_ms", VInt latency)];
               mkLogRecord ERROR "unhandled_exception"
                 [("path", VStr (url_path request));
                  ("error", VStr text)]])%list.
Proof.
  intros Hcall.
  unfold server_errors, try_except_Exception, add_metrics_and_logging, bind,
    attempt.
  simpl in *. rewrite Hcall. simpl.
  unfold generic_exception_handler, bind. simpl.
  destruct (DEBUG settings); simpl; eexists _, _;
    (split; [reflexivity|]); simpl; split;
    try (unfold count_of, labels_of; simpl; rewrite lookup_insert_eq;
         reflexivity);
    rewrite <- app_assoc; reflexivity.
Qed.

Lemma unhandled_exception_flow_witness :
  snd (server_errors production_settings (GET "/api/v1/items/7")
         (add_metrics_and_logging no_faults (GET "/api/v1/items/7")
            failing_route) fresh_world)
  = Return (JSONResponse 500 (JObj [("detail", JStr "Internal Server Error")])).
Proof.
  destruct (unhandled_exception_flow production_settings
              (GET "/api/v1/items/7") failing_route "KeyError" "'sku'"
              fresh_world (fst (time_time fresh_world)) eq_refl)
    as (w2 & latency & Hrun & _).
  rewrite Hrun. reflexivity.
Defined.

(* ------------------------------------------------------------------ *)
(** ** Uptime *)
(* ------------------------------------------------------------------ *)

(** On a non-negative reading [int] is the floor. *)
Lemma Py_int_floor (q : Q) :
  (0 <= q)%Q ->
  0 <= Py.int q /\ (inject_Z (Py.int q) <= q)%Q /\ (q < inject_Z (Py.int q) + 1)%Q.
Proof.
  destruct q as [n d]. unfold Qle, Qlt, Py.int. simpl. intros Hn.
  assert (Hn' : 0 <= n) by lia.
  rewrite Z.quot_div_nonneg by lia.
  pose proof (Z.div_pos n (Zpos d) Hn' (Pos2Z.is_pos d)) as Hdiv.
  pose proof (Z.mul_div_le n (Zpos d) (Pos2Z.is_pos d)) as Hle.
  pose proof (Z.mul_succ_div_gt n (Zpos d) (Pos2Z.is_pos d)) as Hgt.
  repeat split; [exact Hdiv | lia | lia].
Qed.

(** X17. As long as the clock has not gone back behind [START_TIME], the
    [uptime_seconds] that [/health] reports is the whole number of seconds
    elapsed, rounded down: it is never negative and is within one second
    below the elapsed time (clock readings taken as exact rationals). *)
Theorem uptime_is_whole_seconds (START_TIME : Q) (db : Database) (w : World) :
  (START_TIME <= clock w (ticks w))%Q ->
  exists w' r content n,
    health START_TIME db w = (w', Return r) /\
    body r = JSONBody content /\
    json_get "uptime_seconds" content = Some (JInt n) /\
    0 <= n /\
    (inject_Z n <= clock w (ticks w) - START_TIME)%Q /\
    (clock w (ticks w) - START_TIME < inject_Z n + 1)%Q.
Proof.
  intros Hclock.
  assert (Hpos : (0 <= clock w (ticks w) - START_TIME)%Q).
  { apply (proj1 (Qle_minus_iff _ _)). exact Hclock. }
  destruct (Py_int_floor _ Hpos) as (H0 & Hlo & Hhi).
  unfold health, is_healthy, time_time, bind, ret. simpl.
  eexists _, _, _, _. split; [reflexivity|]. simpl.
  split; [reflexivity|]. split; [reflexivity|].
  repeat split; assumption.
Qed.

Lemma uptime_is_whole_seconds_witness :
  exists r content,
    snd (health (1 # 2) {| dsn := None; connected := true |}
           (set_ticks 3 fresh_world)) = Return r /\
    body r = JSONBody content /\
    json_get "uptime_seconds" content = Some (JInt 2).
Proof.
  destruct (uptime_is_whole_seconds (1 # 2) {| dsn := None; connected := true |}
              (set_ticks 3 fresh_world))
    as (w' & r & content & n & Hrun & Hbody & Hget & _).
  - unfold Qle. simpl. lia.
  - exists r, content. rewrite Hrun. split; [reflexivity|].
    split; [exact Hbody|].
    cbv in Hrun. injection Hrun as <- <-.
    simpl in Hbody. injection Hbody as <-.
    cbv in Hget. injection Hget as <-. reflexivity.
Defined.

(* ------------------------------------------------------------------ *)
(** ** Every request is answered *)
(* ------------------------------------------------------------------ *)


